(** * streamlit_app.py: trending-videos dashboard

    A shallow embedding of [src/streamlit_app.py]: the number formatter
    [format_views], the two YouTube fetchers [get_most_popular_videos] and
    [get_channel_subscribers], the session login gate and the rendering of
    one result row, then the settings read by [_get_secret], the region
    controls and the content of the page below the gate, followed by
    the properties the specification states about them and by further
    properties of the code.

    Python values are embedded as the inductive type [value]; Python
    exceptions as the type [exn]; a computation that may raise and that
    mutates state as a function [S -> result A * S], so that what was
    written before an exception is still there when it is caught. *)

From stdpp Require Import gmap strings list fin_maps pretty.
From Stdlib Require Import ZArith Lia Ascii.

Open Scope Z_scope.
Local Set Warnings "-register-all".

(** ** Python values *)

(** The values the program handles: what [resp.json()] decodes (JSON
    null, booleans, numbers, strings, arrays, objects) and what it keeps
    in [st.session_state].  A dict is an association list in insertion
    order, read with [dict_get] (first binding of the key).  Numbers are
    Python [int]s: the YouTube API sends its counts as decimal strings
    or integers, and JSON numbers with a fraction or an exponent (Python
    [float]s) are outside this model. *)
Inductive value :=
| VNone
| VBool (b : bool)
| VInt (z : Z)
| VStr (s : string)
| VList (l : list value)
| VDict (d : list (string * value)).

(** Python truthiness, as used by [if x], [not x], [x and y], [x or y]. *)
Definition truthy (v : value) : bool :=
  match v with
  | VNone => false
  | VBool b => b
  | VInt z => negb (z =? 0)
  | VStr s => negb (String.eqb s "")
  | VList l => match l with [] => false | _ => true end
  | VDict d => match d with [] => false | _ => true end
  end.

(** [x or y] on values. *)
Definition py_or (x y : value) : value := if truthy x then x else y.

Fixpoint dict_get (k : string) (d : list (string * value)) : option value :=
  match d with
  | [] => None
  | (k', v) :: d' => if String.eqb k k' then Some v else dict_get k d'
  end.

(** ** Exceptions and results *)

Inductive exn :=
| HTTPError (msg : string)          (* requests.HTTPError, raised by the program *)
| RuntimeError (msg : string)       (* RuntimeError, raised by the program *)
| RequestException (msg : string)   (* raised inside requests.get: timeout, connection *)
| JSONDecodeError                   (* resp.json() on a body that is not JSON *)
| AttributeError                    (* .get on a value that is not a dict *)
| TypeError
| ValueError
| KeyError
| OverflowError
| ZeroDivisionError.

Inductive result (A : Type) :=
| Ok (a : A)
| Raise (e : exn).
Arguments Ok {A} a.
Arguments Raise {A} e.

Global Instance result_ret : MRet result := λ A a, Ok a.
Global Instance result_bind : MBind result := λ A B f r,
  match r with
  | Ok a => f a
  | Raise e => Raise e
  end.


(** [d.get(k, default)]: an [AttributeError] unless [d] is a dict. *)
Definition py_get (d : value) (k : string) (dflt : value) : result value :=
  match d with
  | VDict o => Ok (default dflt (dict_get k o))
  | _ => Raise AttributeError
  end.

(** ** Built-ins: [str], [int], true division, format specifications *)

(** [str(z)] for an integer is its decimal numeral, [pretty z].
    [str(v)] of a string is the string itself; of a list or a dict it is
    Python's [repr], which is left as the parameter [py_repr] of the
    definitions that print such values. *)
Definition py_str (py_repr : value → string) (v : value) : string :=
  match v with
  | VNone => "None"
  | VBool true => "True"
  | VBool false => "False"
  | VInt z => pretty z
  | VStr s => s
  | VList _ | VDict _ => py_repr v
  end.

(** ASCII white space as [int()] skips it around a numeral: tab, line
    feed, vertical tab, form feed, carriage return, and space. *)
Definition is_space (c : ascii) : bool :=
  let n := Z.of_nat (nat_of_ascii c) in
  ((9 <=? n) && (n <=? 13)) || (n =? 32).

Fixpoint lstrip (s : string) : string :=
  match s with
  | String c s' => if is_space c then lstrip s' else s
  | EmptyString => EmptyString
  end.

Definition strip (s : string) : string :=
  String.rev (lstrip (String.rev (lstrip s))).

Definition digit_of (c : ascii) : option Z :=
  let n := Z.of_nat (nat_of_ascii c) in
  if (48 <=? n) && (n <=? 57) then Some (n - 48) else None.

(** The digits of an integer literal: decimal digits, single underscores
    allowed between two digits only.  [prev] tells whether the previous
    character was a digit. *)
Fixpoint parse_digits (s : string) (acc : Z) (prev : bool) : option Z :=
  match s with
  | EmptyString => if prev then Some acc else None
  | String c s' =>
      match digit_of c with
      | Some d => parse_digits s' (10 * acc + d) true
      | None =>
          if Ascii.eqb c "_" then (if prev then parse_digits s' acc false else None)
          else None
      end
  end.

(** [int(s)] for a string: surrounding white space, an optional sign,
    then the digits.  Only ASCII white space and digits are recognised
    (Python also accepts the other Unicode decimal digits and spaces). *)
Definition int_of_string (s : string) : option Z :=
  match strip s with
  | String "-" r => Z.opp <$> parse_digits r 0 false
  | String "+" r => parse_digits r 0 false
  | r => parse_digits r 0 false
  end.

(** [int(v)]. *)
Definition py_int (v : value) : result Z :=
  match v with
  | VInt z => Ok z
  | VBool b => Ok (if b then 1 else 0)
  | VStr s => match int_of_string s with Some z => Ok z | None => Raise ValueError end
  | VNone | VList _ | VDict _ => Raise TypeError
  end.

(** A binary64 floating-point number, [mant * 2 ^ expo].  Only finite
    values arise in the program. *)
Record float := Float { mant : Z; expo : Z }.

(** [n / d] rounded to the nearest integer, ties to the even one
    ([0 < d]). *)
Definition round_half_even (n d : Z) : Z :=
  let q := n / d in
  let r := n mod d in
  if 2 * r <? d then q
  else if d <? 2 * r then q + 1
  else if Z.even q then q else q + 1.

(** [a / b] on positive integers: Python's true division of [int]s
    returns the binary64 number nearest to the exact quotient, ties to
    even.  The exponent [e] is chosen so that the quotient scaled by
    [2 ^ - e] lies in [[2^52, 2^53)] (not below the subnormal exponent
    -1074); the scaled quotient is then rounded to an integer. *)
Definition truediv_pos (a b : Z) : float :=
  let e0 := Z.log2 a - Z.log2 b - 52 in
  let e1 :=
    if a * 2 ^ Z.max 0 (- e0) <? b * 2 ^ 52 * 2 ^ Z.max 0 e0 then e0 - 1 else e0 in
  let e := Z.max e1 (-1074) in
  let m := round_half_even (a * 2 ^ Z.max 0 (- e)) (b * 2 ^ Z.max 0 e) in
  if m =? 2 ^ 53 then Float (2 ^ 52) (e + 1) else Float m e.

(** [a / b] for Python [int]s: [ZeroDivisionError] when [b] is zero,
    [OverflowError] when the rounded quotient reaches [2 ^ 1024]. *)
Definition int_truediv (a b : Z) : result float :=
  if b =? 0 then Raise ZeroDivisionError
  else if a =? 0 then Ok (Float 0 0)
  else
    let x := truediv_pos (Z.abs a) (Z.abs b) in
    if 1024 <? expo x + 53 then Raise OverflowError
    else Ok (Float (Z.sgn a * Z.sgn b * mant x) (expo x)).

(** The number of tenths printed by the format specification [.1f]: ten
    times the value, rounded to the nearest integer, ties to even.  The
    rounding is of the exact binary value. *)
Definition tenths (x : float) : Z :=
  if 0 <=? expo x then 10 * Z.abs (mant x) * 2 ^ expo x
  else round_half_even (10 * Z.abs (mant x)) (2 ^ (- expo x)).

(** [f"{x:.1f}"]. *)
Definition format_1f (x : float) : string :=
  let t := tenths x in
  (if mant x <? 0 then "-" else "") +:+ pretty (t / 10) +:+ "." +:+ pretty (t mod 10).

(** The digits of a numeral, least significant first, with a comma after
    every third digit that is followed by another; [n] counts the digits
    of the current group. *)
Fixpoint group3 (s : string) (n : nat) : string :=
  match s with
  | EmptyString => EmptyString
  | String c s' =>
      match n with
      | 3%nat => String "," (String c (group3 s' 1))
      | _ => String c (group3 s' (S n))
      end
  end.

(** [f"{v:,}"]: the decimal numeral with a comma between groups of three
    digits, counted from the right. *)
Definition format_grouped (v : Z) : string :=
  (if v <? 0 then "-" else "") +:+
  String.rev (group3 (String.rev (pretty (Z.abs v))) 0).

(** [sep.join(l)]. *)
Fixpoint join (sep : string) (l : list string) : string :=
  match l with
  | [] => ""
  | [s] => s
  | s :: l' => s +:+ sep +:+ join sep l'
  end.

(** [range(0, stop, step)] for a positive [step]. *)
Definition py_range (stop step : nat) : list nat :=
  (λ k, k * step)%nat <$> seq 0 ((stop + step - 1) / step)%nat.

(** [needle in hay] for strings. *)
Fixpoint is_substring (needle hay : string) : bool :=
  String.prefix needle hay ||
  match hay with
  | EmptyString => false
  | String _ hay' => is_substring needle hay'
  end.

(** [s in v] for a string [s]: a key of a dict, an element of a list, a
    substring of a string; a [TypeError] on anything else. *)
Definition py_in (s : string) (v : value) : result bool :=
  match v with
  | VDict d => Ok (bool_decide (is_Some (dict_get s d)))
  | VList l => Ok (existsb (λ x, match x with VStr s' => String.eqb s s' | _ => false end) l)
  | VStr s' => Ok (is_substring s s')
  | VNone | VBool _ | VInt _ => Raise TypeError
  end.

(** [v[s]] for a string [s]. *)
Definition py_getitem (v : value) (s : string) : result value :=
  match v with
  | VDict d => match dict_get s d with Some x => Ok x | None => Raise KeyError end
  | _ => Raise TypeError
  end.

(** [for x in v]: the elements of a list, the keys of a dict, the
    characters of a string (one per byte here, where Python has one per
    code point; the program only ever fails on the first of them); a
    [TypeError] on anything else. *)
Definition py_iter (v : value) : result (list value) :=
  match v with
  | VList l => Ok l
  | VDict d => Ok ((λ kv, VStr kv.1) <$> d)
  | VStr s => Ok ((λ c, VStr (String c EmptyString)) <$> String.list_ascii_of_string s)
  | VNone | VBool _ | VInt _ => Raise TypeError
  end.

(** Keys of the subscriber map, a Python dict: [None], integers (a
    boolean is the integer 0 or 1 as a key) and strings.  Lists and
    dicts are unhashable. *)
Inductive key :=
| KNone
| KInt (z : Z)
| KStr (s : string).

Global Instance key_eq_dec : EqDecision key.
Proof. solve_decision. Defined.

Global Instance key_countable : Countable key.
Proof.
  refine (inj_countable'
    (λ k, match k with KNone => inl () | KInt z => inr (inl z) | KStr s => inr (inr s) end)
    (λ x, match x with inl _ => KNone | inr (inl z) => KInt z | inr (inr s) => KStr s end) _).
  by intros [].
Defined.

Definition hash_key (v : value) : result key :=
  match v with
  | VNone => Ok KNone
  | VBool b => Ok (KInt (if b then 1 else 0))
  | VInt z => Ok (KInt z)
  | VStr s => Ok (KStr s)
  | VList _ | VDict _ => Raise TypeError
  end.

(** ** Stateful computations that may raise *)

(** A computation over a state [S]: the state reached is returned also
    when an exception is raised. *)
Definition M (S A : Type) : Type := S → result A * S.

Global Instance M_ret {S} : MRet (M S) := λ A a s, (Ok a, s).
Global Instance M_bind {S} : MBind (M S) := λ A B f m s,
  match m s with
  | (Ok a, s') => f a s'
  | (Raise e, s') => (Raise e, s')
  end.

Definition raise {S A} (e : exn) : M S A := λ s, (Raise e, s).

Definition lift {S A} (r : result A) : M S A := λ s, (r, s).

(** [try: body  except Exception as e: handler(e)]. *)
Definition try_except {S A} (body : M S A) (handler : exn → M S A) : M S A := λ s,
  match body s with
  | (Ok a, s') => (Ok a, s')
  | (Raise e, s') => handler e s'
  end.

(** [for x in l: body(x)]. *)
Fixpoint for_each {S A} (l : list A) (body : A → M S unit) : M S unit :=
  match l with
  | [] => mret ()
  | x :: l' => body x ;; for_each l' body
  end.

(** A computation on the second component of the state. *)
Definition in_world {L W A} (m : M W A) : M (L * W) A := λ s,
  let '(r, w') := m s.2 in (r, (s.1, w')).

(** Run [m] with a local variable initialised to [init]; its result is
    the final value of the variable. *)
Definition with_local {L W} (init : L) (m : M (L * W) unit) : M W L := λ w,
  match m (init, w) with
  | (Ok _, (l, w')) => (Ok l, w')
  | (Raise e, (_, w')) => (Raise e, w')
  end.

(** ** HTTP and the page *)

Record request := Request { url : string; params : list (string * string) }.

Record response := Response {
  status_code : Z;
  text : string;           (* resp.text, the raw body *)
  json : option value      (* resp.json(): [None] when the body does not decode *)
}.

(** [resp.ok] of the requests library: true unless the status is a
    client or server error, [400 <= status_code < 600]. *)
Definition ok (resp : response) : bool :=
  negb ((400 <=? status_code resp) && (status_code resp <? 600)).

Definition resp_json (resp : response) : result value :=
  match json resp with
  | Some v => Ok v
  | None => Raise JSONDecodeError
  end.

(** What [requests.get] does: raise, or return a response. *)
Inductive http_outcome :=
| Throws (e : exn)
| Responds (resp : response).

(** The two [st.warning] calls of [get_channel_subscribers], with the
    values their f-strings print. *)
Inductive warning :=
| HttpWarning (status : Z) (data : value)  (* line 120 *)
| ExcWarning (e : exn).                    (* line 133 *)

(** What the program has done to the outside: the GET requests issued
    and the warnings shown, oldest first. *)
Record world := World { calls : list request; warnings : list warning }.

(** What a run of the script puts on the page, as far as the login gate
    is concerned. *)
Inductive ui :=
| Subheader (s : string)
| TextInput (label k : string)
| Button (label : string)
| Success (s : string)
| ErrorBox (s : string)
| Caption (s : string)
| Title (s : string)
| InfoBox (s : string).

(** How a run of the script goes on after the part modelled. *)
Inductive control :=
| Proceed
| Rerun
| Stop.

(** The interactions of a user with the page. *)
Inductive event :=
| Reload
| TypeUser (s : string)
| TypePass (s : string)
| ClickLogin
| ClickLogout.

(** The thumbnail cell of a row: [st.image(thumb_url)], or the notice
    [st.write("(썸네일 없음)")]. *)
Inductive thumb_cell :=
| Image (thumb_url : value)
| NoThumbnail.

(** A rendered row: thumbnail cell, title line, the parts of the metrics
    line and the line they are joined into. *)
Record row := Row {
  thumbnail : thumb_cell;
  heading : string;
  parts : list string;
  compact_line : string
}.

(** ** The program *)

Section Program.

(** [repr] of a list or dict, see [py_str]. *)
Variable py_repr : value → string.

(** *** Number formatter *)

(** [format_views(n)], lines 44 to 55.  The [try] covers [int(n)] only:
    an exception of the division is not caught. *)
Definition format_views (n : value) : result string :=
  match py_int n with
  | Raise _ => Ok (py_str py_repr n)
  | Ok v =>
      if 100000000 <=? v then
        x ← int_truediv v 100000000; Ok (format_1f x +:+ "억")
      else if 10000 <=? v then
        x ← int_truediv v 10000; Ok (format_1f x +:+ "만")
      else Ok (format_grouped v)
  end.

(** *** The remote API *)

(** The YouTube service: what the call number [n] of [requests.get]
    (counted from the first request of the session) does on a request. *)
Variable http : nat → request → http_outcome.

(** [requests.get(url, params=params, timeout=15)]: the request is
    recorded, then the service raises or responds. *)
Definition requests_get (u : string) (ps : list (string * string)) : M world response :=
  λ w,
    let req := Request u ps in
    let w' := World (calls w ++ [req]) (warnings w) in
    match http (length (calls w)) req with
    | Throws e => (Raise e, w')
    | Responds resp => (Ok resp, w')
    end.

(** [st.warning(...)]. *)
Definition st_warning (x : warning) : M world unit :=
  λ w, (Ok (), World (calls w) (warnings w ++ [x])).

(** The body a failed response is reported with, lines 78 to 81 and 116
    to 119: the decoded JSON, or the raw text wrapped as an error. *)
Definition error_data (resp : response) : value :=
  match json resp with
  | Some data => data
  | None => VDict [("error", VDict [("message", VStr (text resp))])]
  end.

(** *** Trending-videos fetcher *)

Definition videos_url : string := "https://www.googleapis.com/youtube/v3/videos".

Definition videos_params (api_key region_code : string) (max_results : Z)
  : list (string * string) :=
  [("part", "snippet,statistics"); ("chart", "mostPopular");
   ("regionCode", region_code); ("maxResults", pretty max_results);
   ("key", api_key)].

(** [get_most_popular_videos], lines 59 to 89, without the cache of its
    decorator. *)
Definition get_most_popular_videos (api_key region_code : string) (max_results : Z)
  : M world value :=
  resp ← requests_get videos_url (videos_params api_key region_code max_results);
  if negb (ok resp) then
    raise (HTTPError ("YouTube API HTTP " +:+ pretty (status_code resp) +:+ ": "
                      +:+ py_str py_repr (error_data resp)))
  else
    data ← lift (resp_json resp);
    has_error ← lift (py_in "error" data);
    if has_error : bool then
      err ← lift (py_getitem data "error");
      raise (RuntimeError ("YouTube API Error: " +:+ py_str py_repr err))
    else lift (py_get data "items" (VList [])).

(** *** Subscriber-count batcher *)

(** The order in which Python enumerates the set built from a list of
    strings, [list({cid for cid in l})].  It is fixed by the hashes of
    the strings and is not specified; the properties below assume of it
    what a set guarantees: no duplicates, the same elements. *)
Variable set_order : list string → list string.

Definition channels_url : string := "https://www.googleapis.com/youtube/v3/channels".

Definition channels_params (api_key : string) (batch : list string)
  : list (string * string) :=
  [("part", "statistics"); ("id", join "," batch); ("key", api_key)].

(** [[cid for cid in channel_ids if cid]]: [None] and the empty string
    are falsy. *)
Definition truthy_ids (channel_ids : list (option string)) : list string :=
  omap (λ c, match c with
             | Some s => if truthy (VStr s) then Some s else None
             | None => None
             end) channel_ids.

(** Line 101. *)
Definition unique_ids (channel_ids : list (option string)) : list string :=
  set_order (truthy_ids channel_ids).

(** Lines 105 and 106: the slices [l[i : i + 50]], [i] in
    [range(0, len(l), 50)]. *)
Definition batches (l : list string) : list (list string) :=
  (λ i, take 50 (drop i l)) <$> py_range (length l) 50.

(** [result[k] = n]. *)
Definition set_item (k : key) (n : Z) : M (gmap key Z * world) unit :=
  λ s, (Ok (), (<[k := n]> s.1, s.2)).

(** Lines 124 to 131, the body of the loop over the channel records. *)
Definition store_subscribers (ch : value) : M (gmap key Z * world) unit :=
  cid ← lift (py_get ch "id" VNone);
  stats ← lift (py_get (py_or ch (VDict [])) "statistics" (VDict []));
  subs ← lift (py_get stats "subscriberCount" VNone);
  if truthy cid && negb (if subs is VNone then true else false) then
    try_except
      (n ← lift (py_int subs); k ← lift (hash_key cid); set_item k n)
      (λ _, mret ())
  else mret ().

(** Lines 114 to 131, what is done with the response to a batch. *)
Definition store_response (resp : response) : M (gmap key Z * world) unit :=
  if negb (ok resp) then
    in_world (st_warning (HttpWarning (status_code resp) (error_data resp)))
  else
    data ← lift (resp_json resp);
    items ← lift (py_get data "items" (VList []));
    chs ← lift (py_iter items);
    for_each chs store_subscribers.

(** Lines 106 to 134, the body of the loop over the batches. *)
Definition fetch_batch (api_key : string) (batch : list string)
  : M (gmap key Z * world) unit :=
  try_except
    (resp ← in_world (requests_get channels_url (channels_params api_key batch));
     store_response resp)
    (λ e, in_world (st_warning (ExcWarning e))).

(** [get_channel_subscribers], lines 93 to 135, without the cache of
    its decorator.  The ids are strings or [None], as the caller passes
    them. *)
Definition get_channel_subscribers (api_key : string)
    (channel_ids : list (option string)) : M world (gmap key Z) :=
  match channel_ids with
  | [] => mret ∅
  | _ => with_local ∅ (for_each (batches (unique_ids channel_ids)) (fetch_batch api_key))
  end.

(** What one batch does once the service has answered with [o]: the
    [try] block of [fetch_batch] from the response on, and its handler. *)
Definition after_request (o : http_outcome) : M (gmap key Z * world) unit :=
  try_except
    (match o with
     | Throws e => raise e
     | Responds resp => store_response resp
     end)
    (λ e, in_world (st_warning (ExcWarning e))).

(** The entries a batch answered with [o] puts into an empty map, and
    the warnings it shows. *)
Definition entries_of (o : http_outcome) : gmap key Z :=
  (after_request o (∅, World [] [])).2.1.

Definition warnings_of (o : http_outcome) : list warning :=
  warnings (after_request o (∅, World [] [])).2.2.

(** The request of a batch, and what the service does on the batches
    [bs] when they are the calls number [base], [base + 1], ... *)
Definition channels_request (api_key : string) (batch : list string) : request :=
  Request channels_url (channels_params api_key batch).

Definition outcomes (api_key : string) (base : nat) (bs : list (list string))
  : list http_outcome :=
  imap (λ i b, http (base + i) (channels_request api_key b)) bs.

(** Maps merged in the order given: a later map overrides an earlier
    one on a common key. *)
Definition merge (es : list (gmap key Z)) : gmap key Z :=
  foldl (λ acc e, e ∪ acc) ∅ es.

(** The batch failed as lines 114 and 132 see it: [requests.get] raised,
    or the response is not [ok]. *)
Definition failed (o : http_outcome) : Prop :=
  match o with
  | Throws _ => True
  | Responds resp => ok resp = false
  end.

(** The warning shown for a failed batch. *)
Definition failure_warning (o : http_outcome) : warning :=
  match o with
  | Throws e => ExcWarning e
  | Responds resp => HttpWarning (status_code resp) (error_data resp)
  end.

(** What is assumed of [set_order]. *)
Definition set_order_ok : Prop :=
  ∀ l, NoDup (set_order l) ∧ ∀ x, x ∈ set_order l ↔ x ∈ l.


(** *** Session and login gate *)

(** The configured credentials, lines 146 and 147. *)
Variables EXPECTED_USER EXPECTED_PASS : string.

(** [st.session_state.authenticated], read as a condition.  The key is
    present once [init_session] has run. *)
Definition authenticated (st : gmap string value) : bool :=
  match st !! "authenticated" with
  | Some v => truthy v
  | None => false
  end.

(** Lines 149 and 150. *)
Definition init_session (st : gmap string value) : gmap string value :=
  match st !! "authenticated" with
  | Some _ => st
  | None => <["authenticated" := VBool false]> st
  end.

(** [logout], lines 152 to 157; its [st.rerun()] starts the next run of
    the script. *)
Definition logout (st : gmap string value) : gmap string value :=
  delete "_login_pass" (delete "_login_user" (<["authenticated" := VBool false]> st)).

(** [st.text_input(label, key=k)] returns the text of the widget, which
    Streamlit keeps in the session state under [k]; the text is empty
    while nothing is stored there. *)
Definition text_input (k : string) (st : gmap string value) : string :=
  match st !! k with
  | Some (VStr s) => s
  | _ => ""
  end.

(** The login form of the sidebar, lines 160 and 162 to 164. *)
Definition login_form : list ui :=
  [Subheader "🔐 로그인"; TextInput "아이디" "_login_user";
   TextInput "비밀번호" "_login_pass"; Button "로그인"].

(** The sidebar, lines 159 to 175; [login_btn] is the value of
    [st.button("로그인")], true in the run its click starts. *)
Definition sidebar (login_btn : bool) (st : gmap string value)
  : gmap string value * list ui * control :=
  if negb (authenticated st) then
    let user := text_input "_login_user" st in
    let pw := text_input "_login_pass" st in
    if login_btn then
      if truthy (VStr EXPECTED_USER) && truthy (VStr EXPECTED_PASS)
         && String.eqb user EXPECTED_USER && String.eqb pw EXPECTED_PASS
      then (<["authenticated" := VBool true]> st,
            login_form ++ [Success "로그인 성공"], Rerun)
      else (st, login_form ++
                [ErrorBox "아이디 또는 비밀번호가 올바르지 않습니다.";
                 Caption "관리자는 .streamlit/secrets.toml에서 자격 정보를 설정하세요."],
            Proceed)
    else (st, login_form ++
              [Caption "관리자는 .streamlit/secrets.toml에서 자격 정보를 설정하세요."],
          Proceed)
  else (st, [Subheader "🔐 로그인"; Success "로그인됨"; Button "로그아웃"], Proceed).

(** One run of the script down to the gate, lines 149 to 181.  [Proceed]
    means that the run goes on to the content below the gate, [Stop]
    that it ended at [st.stop()], [Rerun] at [st.rerun()]. *)
Definition script (login_btn : bool) (st : gmap string value)
  : gmap string value * list ui * control :=
  let '(st1, shown, c) := sidebar login_btn (init_session st) in
  match c with
  | Proceed =>
      if negb (authenticated st1) then
        (st1, shown ++ [Title "접근 제한";
                        InfoBox "이 앱을 사용하려면 좌측 사이드바에서 로그인해주세요."], Stop)
      else (st1, shown, Proceed)
  | _ => (st1, shown, c)
  end.

(** The runs an interaction starts: a run that ends in [st.rerun()] is
    followed by one more, in which no button is pressed. *)
Definition settle (login_btn : bool) (st : gmap string value)
  : gmap string value * list ui * control :=
  match script login_btn st with
  | (st1, _, Rerun) => script false st1
  | r => r
  end.

(** The session state after an interaction of the user.  A widget that
    the last run did not show cannot be used: the login form is shown
    while logged out, the logout button while logged in. *)
Definition step (st : gmap string value) (ev : event) : gmap string value :=
  match ev with
  | Reload => (settle false st).1.1
  | TypeUser s =>
      if authenticated st then st
      else (settle false (<["_login_user" := VStr s]> st)).1.1
  | TypePass s =>
      if authenticated st then st
      else (settle false (<["_login_pass" := VStr s]> st)).1.1
  | ClickLogin => if authenticated st then st else (settle true st).1.1
  | ClickLogout => if authenticated st then (settle false (logout st)).1.1 else st
  end.

Definition run_events (st : gmap string value) (evs : list event) : gmap string value :=
  foldl step st evs.

(** The credentials are configured, and the texts of the two login
    fields are equal to them. *)
Definition credentials_match (st : gmap string value) : Prop :=
  EXPECTED_USER ≠ "" ∧ EXPECTED_PASS ≠ "" ∧
  text_input "_login_user" st = EXPECTED_USER ∧
  text_input "_login_pass" st = EXPECTED_PASS.

(** *** One result row *)

(** Lines 272 to 280 and 292 to 296: the thumbnail cell of a row. *)
Definition select_thumbnail (snippet : value) : result thumb_cell :=
  thumbs ← py_get snippet "thumbnails" (VDict []);
  medium ← py_get thumbs "medium" VNone;
  thumb ←
    (if truthy medium then Ok medium else
     high ← py_get thumbs "high" VNone;
     if truthy high then Ok high else
     standard ← py_get thumbs "standard" VNone;
     if truthy standard then Ok standard else
     dflt ← py_get thumbs "default" VNone;
     Ok (py_or dflt (VDict [])));
  thumb_url ← py_get thumb "url" VNone;
  Ok (if truthy thumb_url then Image thumb_url else NoThumbnail).

(** Lines 305 to 311: the parts of the metrics line. *)
Definition metric_parts (channel views likes comments : value) (subs : option Z)
  : result (list string) :=
  v ← format_views views;
  let parts := [py_str py_repr channel; "👁 " +:+ v] in
  parts ←
    (if likes is VNone then Ok parts
     else l ← format_views likes; Ok (parts ++ ["👍 " +:+ l]));
  parts ←
    (if comments is VNone then Ok parts
     else c ← format_views comments; Ok (parts ++ ["💬 " +:+ c]));
  match subs with
  | None => Ok parts
  | Some n => s ← format_views (VInt n); Ok (parts ++ ["👤 " +:+ s +:+ "명"])
  end.

(** The body of the loop over the items, lines 266 to 316, for the item
    of rank [i]. *)
Definition render_row (subs_map : gmap key Z) (i : nat) (item : value) : result row :=
  snippet ← py_get item "snippet" (VDict []);
  stats ← py_get item "statistics" (VDict []);
  title ← py_get snippet "title" (VStr "(제목 없음)");
  channel ← py_get snippet "channelTitle" (VStr "(채널 정보 없음)");
  channel_id ← py_get snippet "channelId" VNone;
  cell ← select_thumbnail snippet;
  views ← py_get stats "viewCount" (VStr "0");
  likes ← py_get stats "likeCount" VNone;
  comments ← py_get stats "commentCount" VNone;
  k ← hash_key channel_id;
  let subs := subs_map !! k in
  video_id ← py_get item "id" VNone;
  let heading :=
    if truthy video_id then
      "**" +:+ pretty i +:+ ". [" +:+ py_str py_repr title
        +:+ "](https://www.youtube.com/watch?v=" +:+ py_str py_repr video_id +:+ ")**"
    else "**" +:+ pretty i +:+ ". " +:+ py_str py_repr title +:+ "**" in
  parts ← metric_parts channel views likes comments subs;
  Ok (Row cell heading parts (join " · " parts)).

End Program.

(** ** Configuration, control bar and page content *)

(** White space as [str.strip()] removes it: the code points for which
    [str.isspace()] holds, in the UTF-8 encoding the strings of this
    model are in.  One byte: U+0009 to U+000D and U+001C to U+0020.  Two
    bytes: U+0085 and U+00A0.  Three bytes: U+1680, U+2000 to U+200A,
    U+2028, U+2029, U+202F, U+205F and U+3000. *)
Definition space1 (a : ascii) : bool :=
  let n := Z.of_nat (nat_of_ascii a) in
  ((9 <=? n) && (n <=? 13)) || ((28 <=? n) && (n <=? 32)).

Definition space2 (a b : ascii) : bool :=
  let m := Z.of_nat (nat_of_ascii a) in
  let n := Z.of_nat (nat_of_ascii b) in
  (m =? 194) && ((n =? 133) || (n =? 160)).

Definition space3 (a b c : ascii) : bool :=
  let l := Z.of_nat (nat_of_ascii a) in
  let m := Z.of_nat (nat_of_ascii b) in
  let n := Z.of_nat (nat_of_ascii c) in
  ((l =? 225) && (m =? 154) && (n =? 128))
  || ((l =? 226) && (m =? 128)
      && (((128 <=? n) && (n <=? 138)) || (n =? 168) || (n =? 169) || (n =? 175)))
  || ((l =? 226) && (m =? 129) && (n =? 159))
  || ((l =? 227) && (m =? 128) && (n =? 128)).

(** The string without the white space it starts with.  With
    [backwards] the string is read from its end: the bytes of a code
    point come last byte first. *)
Fixpoint skip_spaces (backwards : bool) (s : string) : string :=
  match s with
  | String a s1 =>
      if space1 a then skip_spaces backwards s1 else
      match s1 with
      | String b s2 =>
          if (if backwards then space2 b a else space2 a b)
          then skip_spaces backwards s2 else
          match s2 with
          | String c s3 =>
              if (if backwards then space3 c b a else space3 a b c)
              then skip_spaces backwards s3 else s
          | EmptyString => s
          end
      | EmptyString => s
      end
  | EmptyString => EmptyString
  end.

(** [s.strip()]. *)
Definition str_strip (s : string) : string :=
  String.rev (skip_spaces true (String.rev (skip_spaces false s))).

(** What the program reads its settings from: [st.secrets], a mapping
    whose reading raises when no secrets file can be loaded, and the
    process environment as [load_dotenv()] leaves it. *)
Record config := Config {
  secrets : result (list (string * value));
  environ : gmap string string
}.

(** What the content below the gate puts on the page. *)
Inductive block :=
| PageTitle (s : string)          (* st.title, line 183 *)
| PageCaption (s : string)        (* st.caption, line 184 *)
| Widget (label : string)         (* the controls of lines 204 to 225 *)
| Toast (s : string)              (* st.toast, line 231 *)
| ErrorMessage (s : string)       (* st.error, line 236 *)
| HttpErrorBox (e : exn)          (* st.error, line 247, with the exception it prints *)
| LoadErrorBox (e : exn)          (* st.error, line 250, with the exception it prints *)
| WarningMessage (s : string)     (* st.warning, line 254 *)
| Subheading (s : string)         (* st.subheader, line 263 *)
| ResultRow (r : row)             (* lines 290 to 316 *)
| Rule                            (* the separator of line 319 *)
| SuccessMessage (s : string).    (* st.success, line 321 *)

(** The interactions of a user with the two region controls. *)
Inductive region_event :=
| SelectRegion (code : string)
| TypeRegion (s : string).

(** [st.session_state.k], read: an [AttributeError] when the key is
    absent. *)
Definition session_attr (k : string) (st : gmap string value) : result value :=
  match st !! k with
  | Some v => Ok v
  | None => Raise AttributeError
  end.

(** Line 259: the channel id of every item, [None] where the item has
    none. *)
Definition channel_ids_of (items : value) : result (list value) :=
  its ← py_iter items;
  mapM (λ it, snippet ← py_get it "snippet" VNone;
              py_get (py_or snippet (VDict [])) "channelId" VNone) its.

(** A channel id as [get_channel_subscribers] is given it in this
    model: a string, or [None] for a falsy value, which line 101 drops
    like [None].  A truthy value that is not a string is outside the
    model. *)
Definition channel_id_arg (v : value) : option (option string) :=
  if negb (truthy v) then Some None
  else match v with
       | VStr s => Some (Some s)
       | _ => None
       end.

Section Dashboard.

Variable py_repr : value → string.

(** [s.upper()].  Python maps the letters of every script; the function
    is a parameter, of which the properties assume what [upper_ok]
    says. *)
Variable upper : string → string.

Variable http : nat → request → http_outcome.
Variable set_order : list string → list string.
Variable cfg : config.

(** *** Settings *)

(** [_get_secret], lines 17 to 24. *)
Definition _get_secret (name dflt : string) : string :=
  match secrets cfg with
  | Ok d =>
      match dict_get name d with
      | Some v => str_strip (py_str py_repr v)
      | None => str_strip (default dflt (environ cfg !! name))
      end
  | Raise _ => str_strip (default dflt (environ cfg !! name))
  end.

(** Lines 26, 27, 146 and 147. *)
Definition API_KEY : string := _get_secret "YOUTUBE_API_KEY" "".

Definition DEFAULT_REGION : string :=
  let r := _get_secret "REGION_CODE" "KR" in
  if truthy (VStr r) then r else "KR".

Definition EXPECTED_USER : string := _get_secret "AUTH_USERNAME" "".

Definition EXPECTED_PASS : string := _get_secret "AUTH_PASSWORD" "".

(** Lines 31 to 38. *)
Definition REGION_OPTIONS : list (string * string) :=
  [("KR", "대한민국"); ("US", "미국"); ("JP", "일본"); ("IN", "인도"); ("GB", "영국");
   ("DE", "독일"); ("FR", "프랑스"); ("BR", "브라질"); ("MX", "멕시코"); ("CA", "캐나다");
   ("AU", "호주"); ("VN", "베트남"); ("TH", "태국"); ("ID", "인도네시아"); ("TR", "튀르키예");
   ("SA", "사우디아라비아"); ("AE", "아랍에미리트"); ("ES", "스페인"); ("IT", "이탈리아");
   ("RU", "러시아")].

Definition REGION_CODES : list string := REGION_OPTIONS.*1.

(** *** Region controls *)

(** Lines 187 to 190. *)
Definition init_region (st : gmap string value) : gmap string value :=
  let st1 :=
    match st !! "region_sel" with
    | Some _ => st
    | None => <["region_sel" := VStr "KR"]> st
    end in
  match st1 !! "region_custom" with
  | Some _ => st1
  | None =>
      <["region_custom" :=
          VStr (upper (if truthy (VStr DEFAULT_REGION) then DEFAULT_REGION else "KR"))]> st1
  end.

(** [_on_select_region_change], lines 192 to 194. *)
Definition _on_select_region_change (st : gmap string value)
  : result (gmap string value) :=
  sel ← session_attr "region_sel" st;
  Ok (<["region_custom" := VStr (upper (py_str py_repr sel))]> st).

(** [_on_custom_region_change], lines 196 to 198. *)
Definition _on_custom_region_change (st : gmap string value)
  : result (gmap string value) :=
  custom ← session_attr "region_custom" st;
  Ok (<["region_custom" := VStr (upper (py_str py_repr (py_or custom (VStr "KR"))))]> st).

(** [v.upper()]: an [AttributeError] unless [v] is a string. *)
Definition py_upper (v : value) : result string :=
  match v with
  | VStr s => Ok (upper s)
  | _ => Raise AttributeError
  end.

(** Line 221; [region_sel] is read only when [region_custom] is falsy. *)
Definition region (st : gmap string value) : result string :=
  custom ← session_attr "region_custom" st;
  if truthy custom then py_upper custom
  else sel ← session_attr "region_sel" st; py_upper (py_or sel (VStr "KR")).

(** An interaction with a region control: Streamlit stores the new
    value of the widget under its key and runs its [on_change] callback
    before the next run of the script. *)
Definition region_step (st : gmap string value) (ev : region_event)
  : result (gmap string value) :=
  match ev with
  | SelectRegion code => _on_select_region_change (<["region_sel" := VStr code]> st)
  | TypeRegion s => _on_custom_region_change (<["region_custom" := VStr s]> st)
  end.

Fixpoint region_events (st : gmap string value) (evs : list region_event)
  : result (gmap string value) :=
  match evs with
  | [] => Ok st
  | ev :: evs' => st' ← region_step st ev; region_events st' evs'
  end.

(** *** Page content *)

(** One more block on the page. *)
Definition say (b : block) : M (list block * world) unit :=
  λ s, (Ok (), (s.1 ++ [b], s.2)).

(** Lines 244 to 251: the videos, or [None] when the fetch raised and
    the run ends at [st.stop()]. *)
Definition load_items (api_key region_code : string) (max_count : Z)
  : M (list block * world) (option value) :=
  try_except
    (items ← in_world (get_most_popular_videos py_repr http api_key region_code max_count);
     mret (Some items))
    (λ e, say (match e with
               | HTTPError _ => HttpErrorBox e
               | _ => LoadErrorBox e
               end);;
          mret None).

(** Lines 265 to 319, the row of rank [i].  What the row has put on the
    page before one of its steps raises is not recorded. *)
Definition show_row (subs_map : gmap key Z) (x : nat * value)
  : M (list block * world) unit :=
  r ← lift (render_row py_repr subs_map x.1 x.2);
  say (ResultRow r);;
  say Rule.

(** Lines 229 to 321, for the region and the count chosen in the
    control bar.  [Some Stop] is a run ended by [st.stop()],
    [Some Proceed] one that reached the end of the script, and [None]
    one that left the model at line 260, see [channel_id_arg].  The
    caches of the two fetchers are not modelled: every call reaches the
    service. *)
Definition dashboard (api_key region_code : string) (max_count : Z) (refresh : bool)
  : M (list block * world) (option control) :=
  (if refresh then say (Toast "캐시를 비웠습니다. 다시 불러오는 중…") else mret ());;
  if negb (truthy (VStr api_key)) then
    say (ErrorMessage "YOUTUBE_API_KEY가 설정되지 않았습니다.
- 배포/클라우드: .streamlit/secrets.toml에 YOUTUBE_API_KEY를 설정하세요.
- 로컬 개발: .env 파일에 YOUTUBE_API_KEY를 설정하세요.");;
    mret (Some Stop)
  else
    loaded ← load_items api_key region_code max_count;
    match loaded with
    | None => mret (Some Stop)
    | Some items =>
        if negb (truthy items) then
          say (WarningMessage
                 "표시할 동영상이 없습니다. 지역 코드를 확인하거나 잠시 후 다시 시도해주세요.");;
          mret (Some Stop)
        else
          cids ← lift (channel_ids_of items);
          match mapM channel_id_arg cids with
          | None => mret None
          | Some channel_ids =>
              subs_map ← in_world (get_channel_subscribers http set_order api_key channel_ids);
              its ← lift (py_iter items);
              say (Subheading ("지역: " +:+ upper region_code +:+ " • 총 "
                               +:+ pretty (length its) +:+ "개"));;
              for_each (imap (λ i it, (S i, it)) its) (show_row subs_map);;
              say (SuccessMessage "불러오기 완료 ✅");;
              mret (Some Proceed)
          end
    end.

(** Lines 183 to 321, the content below the gate. *)
Definition content (st : gmap string value) (max_count : Z) (refresh : bool)
  : M (list block * world) (option control) :=
  say (PageTitle "🔥 유튜브 인기 동영상");;
  say (PageCaption "YouTube Data API v3 • 지역 기반 인기 콘텐츠 • 캐시 60초");;
  say (Widget "지역 코드 (예시)");;
  say (Widget "커스텀 지역 코드");;
  region_code ← lift (region st);
  say (Widget "표시 개수");;
  say (Widget "🔄 새로고침");;
  dashboard API_KEY region_code max_count refresh.

(** One run of the whole script: the gate, then the content when the
    gate lets the run through.  The result is the session state, what
    the sidebar shows, and how the content went. *)
Definition page_run (login_btn refresh : bool) (max_count : Z) (st : gmap string value)
    (s : list block * world)
  : gmap string value * list ui * (result (option control) * (list block * world)) :=
  let '(st1, shown, c) := script EXPECTED_USER EXPECTED_PASS login_btn st in
  match c with
  | Proceed => (init_region st1, shown, content (init_region st1) max_count refresh s)
  | _ => (st1, shown, (Ok (Some c), s))
  end.

End Dashboard.

(** What is assumed of [upper]: it maps the ASCII letters a to z to A to
    Z and leaves the other ASCII characters, and it makes no string
    empty. *)
Definition ascii_upper_char (c : ascii) : ascii :=
  let n := nat_of_ascii c in
  if (97 <=? n)%nat && (n <=? 122)%nat then ascii_of_nat (n - 32) else c.

Fixpoint ascii_upper (s : string) : string :=
  match s with
  | EmptyString => EmptyString
  | String c s' => String (ascii_upper_char c) (ascii_upper s')
  end.

Fixpoint is_ascii (s : string) : bool :=
  match s with
  | EmptyString => true
  | String c s' => (nat_of_ascii c <? 128)%nat && is_ascii s'
  end.

Definition upper_ok (upper : string → string) : Prop :=
  (∀ s, is_ascii s = true → upper s = ascii_upper s)
  ∧ (∀ s, upper s = "" → s = "").

(** ** Vocabulary of the properties *)

(** A computation of the batcher is [additive] when it reads neither
    the map nor the world it is started in: it only adds entries, calls
    and warnings to them. *)
Definition additive {A} (c : M (gmap key Z * world) A) : Prop :=
  ∀ m w,
    c (m, w) =
    let r := c (∅, World [] []) in
    (r.1, (r.2.1 ∪ m, World (calls w ++ calls r.2.2) (warnings w ++ warnings r.2.2))).



(** The least numerator at which [v / 100_000_000] raises
    [OverflowError]: its quotient rounds to [2 ^ 1024]. *)
Definition overflow_threshold : Z := (2 ^ 1024 - 2 ^ 970) * 100000000.


Fixpoint no_comma (s : string) : bool :=
  match s with
  | EmptyString => true
  | String c s' => negb (Ascii.eqb c ",") && no_comma s'
  end.




(** ** Sample inputs *)

(** A rendering of lists and dicts that elides their contents. *)
Definition short_repr (v : value) : string :=
  match v with
  | VList _ => "[...]"
  | VDict _ => "{...}"
  | _ => ""
  end.

(** A channel record as the channels endpoint returns it. *)
Definition channel_record (cid : string) : value :=
  VDict [("kind", VStr "youtube#channel"); ("id", VStr cid);
         ("statistics", VDict [("subscriberCount", VStr "1000")])].

Fixpoint split_commas (s : string) : list string :=
  match s with
  | EmptyString => [EmptyString]
  | String c s' =>
      if Ascii.eqb c "," then EmptyString :: split_commas s'
      else match split_commas s' with
           | x :: r => String c x :: r
           | [] => [String c EmptyString]
           end
  end.

Fixpoint param (k : string) (ps : list (string * string)) : string :=
  match ps with
  | [] => ""
  | (k', v) :: ps' => if String.eqb k k' then v else param k ps'
  end.

(** A service that answers every batch with one record per requested
    id. *)
Definition echo_service (n : nat) (req : request) : http_outcome :=
  Responds (Response 200 ""
    (Some (VDict [("items", VList (channel_record <$> split_commas (param "id" (params req))))]))).

(** The same service with its second call timing out. *)
Definition flaky_service (n : nat) (req : request) : http_outcome :=
  if decide (n = 1%nat) then Throws (RequestException "Read timed out.")
  else echo_service n req.

(** A service that answers 304 with a JSON body. *)
Definition resp_304 : response :=
  Response 304 "" (Some (VDict [("items", VList [channel_record "UCa"])])).

Definition service_304 (n : nat) (req : request) : http_outcome := Responds resp_304.

(** A service that refuses every request with 403 and a body that is
    not JSON. *)
Definition resp_403 : response := Response 403 "Forbidden" None.

Definition service_403 (n : nat) (req : request) : http_outcome := Responds resp_403.

(** A 200 response of the videos endpoint without [items]. *)
Definition resp_no_items : response :=
  Response 200 "" (Some (VDict [("kind", VStr "youtube#videoListResponse")])).


(** A 200 response whose [items] is an explicit JSON null, and one whose
    body is a JSON array. *)
Definition resp_null_items : response :=
  Response 200 "" (Some (VDict [("kind", VStr "youtube#videoListResponse");
                                ("items", VNone)])).

Definition service_null_items (n : nat) (req : request) : http_outcome :=
  Responds resp_null_items.



(** 120 distinct channel ids. *)
Definition ids120 : list (option string) :=
  (λ i : nat, Some ("UC" +:+ pretty i)) <$> seq 0 120.


(** An item without statistics. *)
Definition item_without_statistics : value :=
  VDict [("id", VStr "x");
         ("snippet", VDict [("title", VStr "t"); ("channelTitle", VStr "ch");
                            ("channelId", VStr "UCa")])].

(** ** Vocabulary of the properties of the settings, the page and the records *)

(** The setting is blank: white space only. *)
Definition blank (s : string) : Prop := skip_spaces false s = "".

(** The setting [name] is given nowhere, or only as white space: the
    value the secrets hold for it is blank or, when the secrets cannot
    be read or do not hold it, the environment does not hold it or
    holds a blank value. *)
Definition unset (py_repr : value → string) (cfg : config) (name : string) : Prop :=
  let in_environ :=
    match environ cfg !! name with
    | Some s => blank s
    | None => True
    end in
  match secrets cfg with
  | Ok d =>
      match dict_get name d with
      | Some v => blank (py_str py_repr v)
      | None => in_environ
      end
  | Raise _ => in_environ
  end.

(** The string starts with a white-space code point (ends with one,
    when read backwards). *)
Definition starts_space (backwards : bool) (s : string) : bool :=
  match s with
  | String a s1 =>
      space1 a ||
      match s1 with
      | String b s2 =>
          (if backwards then space2 b a else space2 a b) ||
          match s2 with
          | String c _ => if backwards then space3 c b a else space3 a b c
          | EmptyString => false
          end
      | EmptyString => false
      end
  | EmptyString => false
  end.

(** The region keys of a session are absent or hold strings, and the
    custom code is not the empty string. *)
Definition region_inv (st : gmap string value) : Prop :=
  (∀ v, st !! "region_sel" = Some v → ∃ c, v = VStr c)
  ∧ (∀ v, st !! "region_custom" = Some v → ∃ s, v = VStr s ∧ s ≠ "").

(** Both region keys are set. *)
Definition region_set (st : gmap string value) : Prop :=
  (∃ c, st !! "region_sel" = Some (VStr c))
  ∧ ∃ s, st !! "region_custom" = Some (VStr s) ∧ s ≠ "".

(** The events a user can produce: the selectbox offers the codes of
    [REGION_CODES] only. *)
Definition offered (ev : region_event) : Prop :=
  match ev with
  | SelectRegion code => code ∈ REGION_CODES
  | TypeRegion _ => True
  end.

(** The request of the primary fetch. *)
Definition videos_request (api_key region_code : string) (max_count : Z) : request :=
  Request videos_url (videos_params api_key region_code max_count).

(** The toast of a refresh, when there is one. *)
Definition toast_of (refresh : bool) : list block :=
  if refresh then [Toast "캐시를 비웠습니다. 다시 불러오는 중…"] else [].

(** The error box of lines 246 to 251 for an exception of the fetch. *)
Definition error_box (e : exn) : block :=
  match e with
  | HTTPError _ => HttpErrorBox e
  | _ => LoadErrorBox e
  end.

(** What the content shows above the results. *)
Definition control_bar : list block :=
  [PageTitle "🔥 유튜브 인기 동영상";
   PageCaption "YouTube Data API v3 • 지역 기반 인기 콘텐츠 • 캐시 60초";
   Widget "지역 코드 (예시)"; Widget "커스텀 지역 코드";
   Widget "표시 개수"; Widget "🔄 새로고침"].

(** The blocks of the rows, each followed by its separator. *)
Definition row_blocks (rows : list row) : list block :=
  rows ≫= λ r, [ResultRow r; Rule].

(** The items with their ranks, [enumerate(items, start=1)]. *)
Definition ranked (its : list value) : list (nat * value) :=
  imap (λ i it, (S i, it)) its.

Definition is_dict (v : value) : bool :=
  match v with VDict _ => true | _ => false end.



(** The response is [ok] and its body is an object whose [items] are
    the list [chs]. *)
Definition carries (resp : response) (chs : list value) : Prop :=
  ok resp = true ∧ ∃ d, json resp = Some (VDict d) ∧ dict_get "items" d = Some (VList chs).



(** The keys of a map are truthy as Python values. *)
Definition truthy_keys (m : gmap key Z) : Prop :=
  m !! KNone = None ∧ m !! KInt 0 = None ∧ m !! KStr "" = None.

(** No id of the batch contains a comma. *)
Definition comma_free (b : list string) : Prop := Forall (λ s, no_comma s = true) b.




(** ** Sample settings, pages and records *)

(** No secrets file, and an environment that gives the API key with
    stray blanks and a user name, but no password. *)
Definition cfg_without_password : config :=
  Config (Raise KeyError)
         (<["YOUTUBE_API_KEY" := " k3y "]> (<["AUTH_USERNAME" := "admin"]> ∅)).

(** No secrets file and an empty environment. *)
Definition cfg_empty : config := Config (Raise KeyError) ∅.

(** A video of the channel [c]. *)
Definition video_item (c : string) : value :=
  VDict [("id", VStr "v");
         ("snippet", VDict [("title", VStr "t"); ("channelId", VStr c)]);
         ("statistics", VDict [("viewCount", VStr "12345")])].

(** A service that answers the primary fetch with two videos and every
    batch with no record. *)
Definition video_service (n : nat) (req : request) : http_outcome :=
  if String.eqb (url req) videos_url
  then Responds (Response 200 ""
         (Some (VDict [("items", VList [video_item "UCa"; video_item "UCb"])])))
  else Responds resp_no_items.

(** An item whose snippet has no channel id. *)
Definition item_without_channel : value :=
  VDict [("id", VStr "x"); ("snippet", VDict [("title", VStr "t")])].

(** A 200 response of the channels endpoint with the records [chs]. *)
Definition channels_response (chs : list value) : response :=
  Response 200 "" (Some (VDict [("kind", VStr "youtube#channelListResponse");
                                ("items", VList chs)])).

(** An item whose snippet is null. *)
Definition item_null_snippet : list (string * value) :=
  [("id", VStr "x"); ("snippet", VNone)].



(** ** Properties of the number formatter *)

Section Rounding.

(** *** Rounding to the nearest integer *)

Lemma round_half_even_cases n d :
  0 < d →
  ∃ q r, n = d * q + r ∧ 0 ≤ r < d ∧
    ((2 * r < d ∧ round_half_even n d = q)
     ∨ (d < 2 * r ∧ round_half_even n d = q + 1)
     ∨ (2 * r = d ∧ Z.even q = true ∧ round_half_even n d = q)
     ∨ (2 * r = d ∧ Z.even q = false ∧ round_half_even n d = q + 1)).
Proof.
  intros Hd. exists (n / d), (n mod d).
  split; [apply Z.div_mod; lia|]. split; [apply Z.mod_pos_bound; lia|].
  unfold round_half_even.
  destruct (Z.ltb_spec (2 * (n mod d)) d); [by left|].
  destruct (Z.ltb_spec d (2 * (n mod d))); [right; by left|].
  destruct (Z.even (n / d)) eqn:E; right; right; [left|right]; repeat split; lia.
Qed.

(** The rounded quotient is within one half of the exact one. *)
Lemma round_half_even_near n d :
  0 < d → 2 * Z.abs (round_half_even n d * d - n) ≤ d.
Proof.
  intros Hd.
  destruct (round_half_even_cases n d Hd) as
    (q & r & -> & Hr & [(? & ->)|[(? & ->)|[(? & _ & ->)|(? & _ & ->)]]]); nia.
Qed.

Lemma round_half_even_below n d K :
  0 < d → 2 * n < (2 * K - 1) * d → round_half_even n d ≤ K - 1.
Proof.
  intros Hd Hn.
  destruct (round_half_even_cases n d Hd) as
    (q & r & -> & Hr & [(? & ->)|[(? & ->)|[(? & _ & ->)|(? & _ & ->)]]]); nia.
Qed.

Lemma round_half_even_above n d K :
  0 < d → (2 * K - 1) * d ≤ 2 * n → Z.odd (K - 1) = true → K ≤ round_half_even n d.
Proof.
  intros Hd Hn Hodd.
  destruct (round_half_even_cases n d Hd) as
    (q & r & -> & Hr & [(? & ->)|[(? & ->)|[(? & He & ->)|(? & _ & ->)]]]); try nia.
  assert (q ≠ K - 1).
  { intros ->. rewrite <- Z.negb_odd, Hodd in He. done. }
  nia.
Qed.

Lemma round_half_even_mono_le n d K :
  0 < d → n ≤ K * d → round_half_even n d ≤ K.
Proof.
  intros Hd Hn.
  destruct (round_half_even_cases n d Hd) as
    (q & r & -> & Hr & [(? & ->)|[(? & ->)|[(? & _ & ->)|(? & _ & ->)]]]); nia.
Qed.


(** *** The exponent of a quotient, and when it overflows *)

Lemma expo_truediv_pos_le a b :
  expo (truediv_pos a b) ≤ Z.max (Z.log2 a - Z.log2 b - 52) (-1074) + 1.
Proof.
  unfold truediv_pos. repeat case_match; cbn [expo]; lia.
Qed.

Lemma expo_truediv_pos_ge a b :
  Z.log2 a - Z.log2 b - 53 ≤ expo (truediv_pos a b).
Proof.
  unfold truediv_pos. repeat case_match; cbn [expo]; lia.
Qed.

Lemma truediv_1e8_small v :
  0 < v → v < 2 ^ 1049 → expo (truediv_pos v 100000000) + 53 ≤ 1024.
Proof.
  intros Hv Hlt.
  pose proof (expo_truediv_pos_le v 100000000) as H.
  change (Z.log2 100000000) with 26 in H.
  assert (Z.log2 v < 1049) by (apply Z.log2_lt_pow2; lia). lia.
Qed.

Lemma truediv_1e8_exp971 v :
  0 < v → v < overflow_threshold →
  expo (if round_half_even v (100000000 * 2 ^ 971) =? 2 ^ 53
        then Float (2 ^ 52) (971 + 1)
        else Float (round_half_even v (100000000 * 2 ^ 971)) 971) = 971.
Proof.
  intros Hv Hlt. unfold overflow_threshold in Hlt.
  assert (round_half_even v (100000000 * 2 ^ 971) ≤ 2 ^ 53 - 1).
  { apply round_half_even_below; lia. }
  destruct (Z.eqb_spec (round_half_even v (100000000 * 2 ^ 971)) (2 ^ 53)); [lia|done].
Qed.

Lemma log2_cases_1049 v :
  2 ^ 1049 ≤ v → v < 2 ^ 1051 → Z.log2 v = 1049 ∨ Z.log2 v = 1050.
Proof.
  intros Hge Hlt.
  assert (1049 ≤ Z.log2 v) by (apply Z.log2_le_pow2; lia).
  assert (Z.log2 v < 1051) by (apply Z.log2_lt_pow2; lia). lia.
Qed.

(** [truediv_pos] when the exponent is positive: no scaling of the
    numerator. *)
Lemma truediv_pos_large a b e0 :
  e0 = Z.log2 a - Z.log2 b - 52 → 0 < e0 →
  truediv_pos a b =
  let e := if a <? b * 2 ^ 52 * 2 ^ e0 then e0 - 1 else e0 in
  let m := round_half_even a (b * 2 ^ e) in
  if m =? 2 ^ 53 then Float (2 ^ 52) (e + 1) else Float m e.
Proof.
  intros He0 Hpos. unfold truediv_pos. rewrite <- He0.
  rewrite (Z.max_l 0 (- e0)), (Z.max_r 0 e0), Z.pow_0_r, Z.mul_1_r by lia.
  destruct (a <? b * 2 ^ 52 * 2 ^ e0); cbn zeta.
  - rewrite (Z.max_l (e0 - 1) (-1074)), (Z.max_l 0 (- (e0 - 1))), (Z.max_r 0 (e0 - 1)),
      Z.pow_0_r, Z.mul_1_r by lia. done.
  - rewrite (Z.max_l e0 (-1074)), (Z.max_l 0 (- e0)), (Z.max_r 0 e0),
      Z.pow_0_r, Z.mul_1_r by lia. done.
Qed.

Lemma truediv_1e8_mid v :
  2 ^ 1049 ≤ v → v < overflow_threshold →
  expo (truediv_pos v 100000000) + 53 ≤ 1024.
Proof.
  intros Hge Hlt.
  assert (Hlt' : v < 2 ^ 1051) by (unfold overflow_threshold in Hlt; lia).
  destruct (log2_cases_1049 v Hge Hlt') as [Hl | Hl].
  - rewrite (truediv_pos_large v 100000000 971) by (rewrite ?Hl; done). cbn zeta.
    destruct (v <? 100000000 * 2 ^ 52 * 2 ^ 971).
    + replace (971 - 1) with 970 by done. case_match; cbn [expo]; lia.
    + rewrite truediv_1e8_exp971 by lia. lia.
  - rewrite (truediv_pos_large v 100000000 972) by (rewrite ?Hl; done). cbn zeta.
    destruct (Z.ltb_spec v (100000000 * 2 ^ 52 * 2 ^ 972)) as [_|Hc].
    + replace (972 - 1) with 971 by done. rewrite truediv_1e8_exp971 by lia. lia.
    + unfold overflow_threshold in Hlt. lia.
Qed.

Lemma truediv_1e8_overflow v :
  overflow_threshold ≤ v → 1024 < expo (truediv_pos v 100000000) + 53.
Proof.
  intros Hge. unfold overflow_threshold in Hge.
  assert (Hl : 1050 ≤ Z.log2 v) by (apply Z.log2_le_pow2; lia).
  destruct (decide (Z.log2 v = 1050)) as [Hlog|Hlog].
  2:{ pose proof (expo_truediv_pos_ge v 100000000) as H.
      change (Z.log2 100000000) with 26 in H. lia. }
  rewrite (truediv_pos_large v 100000000 972) by (rewrite ?Hlog; done). cbn zeta.
  destruct (Z.ltb_spec v (100000000 * 2 ^ 52 * 2 ^ 972)) as [Hc|Hc].
  - replace (972 - 1) with 971 by done.
    assert (2 ^ 53 ≤ round_half_even v (100000000 * 2 ^ 971)).
    { apply round_half_even_above; [lia|lia|done]. }
    assert (round_half_even v (100000000 * 2 ^ 971) ≤ 2 ^ 53).
    { apply round_half_even_mono_le; lia. }
    destruct (Z.eqb_spec (round_half_even v (100000000 * 2 ^ 971)) (2 ^ 53));
      cbn [expo]; lia.
  - case_match; cbn [expo]; lia.
Qed.

Lemma int_truediv_1e8 v :
  100000000 ≤ v →
  (v < overflow_threshold → ∃ x, int_truediv v 100000000 = Ok x)
  ∧ (overflow_threshold ≤ v → int_truediv v 100000000 = Raise OverflowError).
Proof.
  intros Hv. unfold int_truediv.
  change (100000000 =? 0) with false. change (Z.abs 100000000) with 100000000.
  destruct (Z.eqb_spec v 0) as [->|_]; [lia|].
  rewrite (Z.abs_eq v) by lia. cbn iota. split.
  - intros Hlt.
    assert (expo (truediv_pos v 100000000) + 53 ≤ 1024).
    { destruct (Z_lt_le_dec v (2 ^ 1049)).
      - apply truediv_1e8_small; lia.
      - by apply truediv_1e8_mid. }
    destruct (Z.ltb_spec 1024 (expo (truediv_pos v 100000000) + 53)); [lia|].
    by eexists.
  - intros Hge. pose proof (truediv_1e8_overflow v Hge).
    by destruct (Z.ltb_spec 1024 (expo (truediv_pos v 100000000) + 53)); [|lia].
Qed.

Lemma int_truediv_1e4 v :
  10000 ≤ v < 100000000 → ∃ x, int_truediv v 10000 = Ok x.
Proof.
  intros Hv. unfold int_truediv.
  change (10000 =? 0) with false. change (Z.abs 10000) with 10000.
  destruct (Z.eqb_spec v 0) as [->|_]; [lia|].
  rewrite (Z.abs_eq v) by lia. cbn iota.
  pose proof (expo_truediv_pos_le v 10000) as H.
  change (Z.log2 10000) with 13 in H.
  assert (Z.log2 v < 27) by (apply Z.log2_lt_pow2; lia).
  destruct (Z.ltb_spec 1024 (expo (truediv_pos v 10000) + 53)); [lia|].
  by eexists.
Qed.

(** *** Accuracy of the printed tenth *)

Lemma round_half_even_nonneg n d : 0 ≤ n → 0 < d → 0 ≤ round_half_even n d.
Proof.
  intros Hn Hd.
  destruct (round_half_even_cases n d Hd) as
    (q & r & -> & Hr & [(? & ->)|[(? & ->)|[(? & _ & ->)|(? & _ & ->)]]]); nia.
Qed.

(** If [m / s] is within [β / (2 b s)] of [v / b], [b = 10 c] with [c]
    even, and [t] is [10 m / s] rounded, then [t] is an integer nearest
    to [v / c] as soon as [β < 2 s]: the error of [m / s] is too small to
    carry [10 m / s] across a half-integer that [v / c] is not on. *)
Lemma nearest_tenth v c s m t β :
  0 < c → Z.even c = true → 0 < s →
  2 * Z.abs (m * (10 * c) - v * s) ≤ β →
  2 * Z.abs (t * s - 10 * m) ≤ s →
  β < 2 * s →
  2 * Z.abs (t * c - v) ≤ c.
Proof.
  intros Hc Hev Hs H1 H2 Hβ.
  apply Z.even_spec in Hev as [c' ->].
  destruct (Z_le_gt_dec (2 * Z.abs (t * (2 * c') - v)) (2 * c')) as [|Hgt]; [done|].
  exfalso.
  destruct (Z_le_gt_dec (t * (2 * c')) v) as [Hle|Hlt].
  - assert (HD : 2 ≤ 2 * v - 2 * (t * (2 * c')) - 2 * c') by lia.
    assert (s * (2 * v - 2 * (t * (2 * c')) - 2 * c') ≤ β) by nia.
    nia.
  - assert (HD : 2 ≤ 2 * (t * (2 * c')) - 2 * v - 2 * c') by lia.
    assert (s * (2 * (t * (2 * c')) - 2 * v - 2 * c') ≤ β) by nia.
    nia.
Qed.

(** [truediv_pos] when the exponent is negative: no scaling of the
    denominator. *)
Lemma truediv_pos_small a b e0 :
  e0 = Z.log2 a - Z.log2 b - 52 → -1073 ≤ e0 < 0 →
  truediv_pos a b =
  let e := if a * 2 ^ (- e0) <? b * 2 ^ 52 then e0 - 1 else e0 in
  let m := round_half_even (a * 2 ^ (- e)) b in
  if m =? 2 ^ 53 then Float (2 ^ 52) (e + 1) else Float m e.
Proof.
  intros He0 Hneg. unfold truediv_pos. rewrite <- He0.
  rewrite (Z.max_r 0 (- e0)), (Z.max_l 0 e0), Z.pow_0_r, Z.mul_1_r by lia.
  destruct (a * 2 ^ (- e0) <? b * 2 ^ 52); cbn zeta.
  - rewrite (Z.max_l (e0 - 1) (-1074)), (Z.max_r 0 (- (e0 - 1))), (Z.max_l 0 (e0 - 1)),
      Z.pow_0_r, Z.mul_1_r by lia. done.
  - rewrite (Z.max_l e0 (-1074)), (Z.max_r 0 (- e0)), (Z.max_l 0 e0),
      Z.pow_0_r, Z.mul_1_r by lia. done.
Qed.

(** The tenths printed for [v / b], [b = 10 c], are an integer nearest
    to [v / c], for every [v] a binary64 number holds exactly. *)
Lemma tenths_accurate v b c :
  b = 10 * c → 0 < c → Z.even c = true → 5 * c < 2 ^ Z.log2 b →
  b ≤ v < 2 ^ 53 →
  let x := truediv_pos v b in
  0 ≤ mant x ∧ 2 * Z.abs (tenths x * c - v) ≤ c.
Proof.
  intros Hb Hc Hev Hlb Hv x.
  assert (Hbpos : 0 < b) by lia.
  assert (Hlb0 : 0 ≤ Z.log2 b) by apply Z.log2_nonneg.
  assert (Hlbv : Z.log2 b ≤ Z.log2 v) by (apply Z.log2_le_mono; lia).
  assert (Hlv : Z.log2 v < 53) by (apply Z.log2_lt_pow2; lia).
  assert (Hb1 : 4 ≤ Z.log2 b).
  { destruct (Z_le_gt_dec 4 (Z.log2 b)) as [|Hsmall]; [done|]. exfalso.
    assert (2 ^ Z.log2 b ≤ 2 ^ 3) by (apply Z.pow_le_mono_r; lia).
    apply Z.even_spec in Hev as [c' ->]. lia. }
  subst x.
  rewrite (truediv_pos_small v b (Z.log2 v - Z.log2 b - 52)) by lia. cbn zeta.
  set (e := if _ <? _ then _ else _).
  assert (He : -53 ≤ e ≤ - Z.log2 b) by (subst e; case_match; lia).
  clearbody e.
  set (s := 2 ^ (- e)).
  assert (Hs : 2 ^ Z.log2 b ≤ s) by (apply Z.pow_le_mono_r; lia).
  assert (Hs2 : s = 2 * 2 ^ (- (e + 1))).
  { subst s. rewrite <- Z.pow_succ_r by lia. f_equal. lia. }
  assert (Hspos : 0 < 2 ^ (- (e + 1))) by (apply Z.pow_pos_nonneg; lia).
  pose proof (round_half_even_near (v * s) b Hbpos) as Hm.
  pose proof (round_half_even_nonneg (v * s) b ltac:(nia) Hbpos) as Hm0.
  destruct (Z.eqb_spec (round_half_even (v * s) b) (2 ^ 53)) as [Hbump|_].
  - split; [done|]. unfold tenths. cbn [mant expo].
    destruct (Z.leb_spec 0 (e + 1)) as [|_]; [lia|].
    set (s' := 2 ^ (- (e + 1))) in *.
    change (Z.abs (2 ^ 52)) with (2 ^ 52).
    pose proof (round_half_even_near (10 * 2 ^ 52) s' Hspos) as Ht.
    apply (nearest_tenth v c s' (2 ^ 52) _ (5 * c)); try done; [|lia].
    rewrite Hbump in Hm. nia.
  - split; [done|]. unfold tenths. cbn [mant expo].
    destruct (Z.leb_spec 0 e) as [|_]; [lia|].
    rewrite (Z.abs_eq _ Hm0). fold s.
    pose proof (round_half_even_near (10 * round_half_even (v * s) b) s ltac:(lia)) as Ht.
    apply (nearest_tenth v c s (round_half_even (v * s) b) _ b); try done; [lia|nia|lia].
Qed.
End Rounding.

(** *** Grouping by thousands *)

Section Grouping.




Lemma string_app_nil_r (s : string) : s +:+ "" = s.
Proof.
  induction s as [|c s IH]; [done|].
  change (String c (s +:+ "") = String c s). by f_equal.
Qed.

Lemma rev_app_rev_app s t u :
  String.rev_app (String.rev_app s t) u = String.rev_app t (s +:+ u).
Proof.
  revert t u. induction s as [|c s IH]; intros t u; [done|].
  simpl. by rewrite IH.
Qed.

Lemma string_rev_involutive s : String.rev (String.rev s) = s.
Proof.
  unfold String.rev. rewrite rev_app_rev_app. simpl. apply string_app_nil_r.
Qed.




End Grouping.

Section Formatter.
Variable py_repr : value → string.

Lemma string_app_assoc (s1 s2 s3 : string) : (s1 +:+ s2) +:+ s3 = s1 +:+ s2 +:+ s3.
Proof.
  induction s1 as [|c s1 IH]; [done|].
  change (String c ((s1 +:+ s2) +:+ s3) = String c (s1 +:+ s2 +:+ s3)). by f_equal.
Qed.

Lemma format_views_int v :
  format_views py_repr (VInt v) =
  if 100000000 <=? v then
    x ← int_truediv v 100000000; Ok (format_1f x +:+ "억")
  else if 10000 <=? v then
    x ← int_truediv v 10000; Ok (format_1f x +:+ "만")
  else Ok (format_grouped v).
Proof. done. Qed.

(** What [.1f] prints for a quotient that does not overflow: the
    digits of its tenths. *)
Lemma format_1f_truediv v b c :
  b = 10 * c → 0 < c → Z.even c = true → 5 * c < 2 ^ Z.log2 b →
  b ≤ v < 2 ^ 53 →
  ∀ x, int_truediv v b = Ok x →
  ∃ t, format_1f x = pretty (t / 10) +:+ "." +:+ pretty (t mod 10)
       ∧ 2 * Z.abs (c * t - v) ≤ c.
Proof.
  intros Hb Hc Hev Hlb Hv x Hx.
  destruct (tenths_accurate v b c Hb Hc Hev Hlb Hv) as [Hm Ht].
  unfold int_truediv in Hx.
  destruct (Z.eqb_spec b 0); [lia|]. destruct (Z.eqb_spec v 0); [lia|].
  rewrite (Z.abs_eq v), (Z.abs_eq b) in Hx by lia.
  destruct (1024 <? _); [done|]. injection Hx as <-.
  rewrite (Z.sgn_pos v), (Z.sgn_pos b) by lia.
  exists (tenths (truediv_pos v b)). split; [|by rewrite (Z.mul_comm c)].
  unfold format_1f, tenths. cbn [mant expo].
  rewrite !Z.mul_1_l.
  destruct (Z.ltb_spec (mant (truediv_pos v b)) 0); [lia|]. done.
Qed.


End Formatter.

(** ** Properties of the trending-videos fetcher *)

Section Videos.
Variable py_repr : value → string.
Variable http : nat → request → http_outcome.
Variables (api_key region_code : string) (max_results : Z).

Lemma ok_false_iff resp : ok resp = false ↔ 400 ≤ status_code resp < 600.
Proof. unfold ok. rewrite negb_false_iff, andb_true_iff. lia. Qed.


Lemma get_most_popular_videos_world w :
  (get_most_popular_videos py_repr http api_key region_code max_results w).2 =
  World (calls w ++ [Request videos_url (videos_params api_key region_code max_results)])
        (warnings w).
Proof.
  unfold get_most_popular_videos, mbind, M_bind, requests_get, raise, lift.
  repeat (case_match; simplify_eq/=); done.
Qed.

Lemma get_most_popular_videos_not_ok w resp :
  http (length (calls w)) (Request videos_url (videos_params api_key region_code max_results))
    = Responds resp →
  ok resp = false →
  (get_most_popular_videos py_repr http api_key region_code max_results w).1 =
  Raise (HTTPError ("YouTube API HTTP " +:+ pretty (status_code resp) +:+ ": "
                    +:+ py_str py_repr (error_data resp))).
Proof.
  intros Hresp Hok.
  unfold get_most_popular_videos, mbind, M_bind, requests_get, raise.
  by rewrite Hresp, Hok.
Qed.

Lemma get_most_popular_videos_dict w resp d :
  http (length (calls w)) (Request videos_url (videos_params api_key region_code max_results))
    = Responds resp →
  ok resp = true → json resp = Some (VDict d) →
  (get_most_popular_videos py_repr http api_key region_code max_results w).1 =
  match dict_get "error" d with
  | Some err => Raise (RuntimeError ("YouTube API Error: " +:+ py_str py_repr err))
  | None => Ok (default (VList []) (dict_get "items" d))
  end.
Proof.
  intros Hresp Hok Hjson.
  unfold get_most_popular_videos, mbind, M_bind, requests_get, raise, lift, resp_json.
  rewrite Hresp, Hok, Hjson. unfold py_in, py_getitem, py_get.
  by destruct (dict_get "error" d) as [err|] eqn:E.
Qed.

(** C5, as amended.  When the service responds to the primary fetch:
    exactly one request is issued, whatever the response; a response
    that is not [ok], which is one whose status is from 400 to 599,
    raises [HTTPError] with the message made of the status code and of
    the decoded body or, when the body does not decode, of the raw text
    wrapped as an error; a 403 response yields a message that includes
    403; an [ok] response whose decoded body is an object with an
    [error] field raises [RuntimeError] with that payload. *)
Theorem fetch_errors (w : world) (resp : response) :
  let req := Request videos_url (videos_params api_key region_code max_results) in
  let r := get_most_popular_videos py_repr http api_key region_code max_results w in
  http (length (calls w)) req = Responds resp →
  r.2 = World (calls w ++ [req]) (warnings w)
  ∧ (ok resp = false ↔ 400 ≤ status_code resp < 600)
  ∧ (ok resp = false →
       r.1 = Raise (HTTPError ("YouTube API HTTP " +:+ pretty (status_code resp) +:+ ": "
                               +:+ py_str py_repr (error_data resp)))
       ∧ (∀ data, json resp = Some data → error_data resp = data)
       ∧ (json resp = None →
          error_data resp = VDict [("error", VDict [("message", VStr (text resp))])]))
  ∧ (status_code resp = 403 →
       ∃ rest, r.1 = Raise (HTTPError ("YouTube API HTTP 403" +:+ rest)))
  ∧ (∀ d err, ok resp = true → json resp = Some (VDict d) →
       dict_get "error" d = Some err →
       r.1 = Raise (RuntimeError ("YouTube API Error: " +:+ py_str py_repr err))).
Proof.
  intros req r Hresp. subst r req.
  split; [apply get_most_popular_videos_world|].
  split; [apply ok_false_iff|]. split; [|split].
  - intros Hok. split; [by apply get_most_popular_videos_not_ok|].
    unfold error_data. split; [by intros data ->|by intros ->].
  - intros H403. eexists.
    rewrite (get_most_popular_videos_not_ok w resp Hresp) by (apply ok_false_iff; lia).
    rewrite H403. reflexivity.
  - intros d err Hok Hjson Herr.
    by rewrite (get_most_popular_videos_dict w resp d Hresp Hok Hjson), Herr.
Qed.

End Videos.

(** ** Properties of the subscriber-count batcher *)

Section Batcher.
Variable http : nat → request → http_outcome.
Variable set_order : list string → list string.
Variable api_key : string.

(** *** One batch *)

Lemma additive_ret {A} (a : A) : additive (mret a).
Proof.
  intros m [cs ws]. unfold mret, M_ret. simpl.
  by rewrite (left_id_L ∅ (∪)), !app_nil_r.
Qed.

Lemma additive_lift {A} (r : result A) : additive (lift r).
Proof.
  intros m [cs ws]. unfold lift. simpl. by rewrite (left_id_L ∅ (∪)), !app_nil_r.
Qed.

Lemma additive_raise {A} e : additive (raise (A:=A) e).
Proof. apply (additive_lift (Raise e)). Qed.

Lemma additive_warning x : additive (in_world (L:=gmap key Z) (st_warning x)).
Proof.
  intros m [cs ws]. unfold in_world, st_warning. simpl.
  by rewrite (left_id_L ∅ (∪)), !app_nil_r.
Qed.

Lemma additive_set_item k n : additive (set_item k n).
Proof.
  intros m [cs ws]. unfold set_item. simpl.
  by rewrite insert_union_singleton_l, insert_empty, !app_nil_r.
Qed.

Lemma additive_bind {A B} (c : M (gmap key Z * world) A) (d : A → M (gmap key Z * world) B) :
  additive c → (∀ a, additive (d a)) → additive (c ≫= d).
Proof.
  intros Hc Hd m w. unfold mbind, M_bind.
  rewrite (Hc m w). destruct (c (∅, World [] [])) as [[a|e] [δ w1]]; simpl; [|done].
  rewrite (Hd a (δ ∪ m) _), (Hd a δ w1).
  destruct (d a (∅, World [] [])) as [r [δ' w2]]; simpl.
  by rewrite (assoc_L (∪)), !(assoc_L (++)).
Qed.

Lemma additive_try_except {A} (c : M (gmap key Z * world) A) h :
  additive c → (∀ e, additive (h e)) → additive (try_except c h).
Proof.
  intros Hc Hh m w. unfold try_except.
  rewrite (Hc m w). destruct (c (∅, World [] [])) as [[a|e] [δ w1]]; simpl; [done|].
  rewrite (Hh e (δ ∪ m) _), (Hh e δ w1).
  destruct (h e (∅, World [] [])) as [r [δ' w2]]; simpl.
  by rewrite (assoc_L (∪)), !(assoc_L (++)).
Qed.

Lemma additive_for_each {A} (l : list A) (body : A → M (gmap key Z * world) unit) :
  (∀ x, additive (body x)) → additive (for_each l body).
Proof.
  intros Hb. induction l as [|x l IH]; simpl.
  - apply additive_ret.
  - by apply additive_bind.
Qed.

Lemma additive_store_subscribers ch : additive (store_subscribers ch).
Proof.
  unfold store_subscribers.
  repeat (apply additive_bind; [apply additive_lift|intros ?]).
  case_match; [|apply additive_ret].
  apply additive_try_except; [|intros; apply additive_ret].
  repeat (apply additive_bind; [apply additive_lift|intros ?]).
  apply additive_set_item.
Qed.

Lemma additive_store_response resp : additive (store_response resp).
Proof.
  unfold store_response. case_match; [apply additive_warning|].
  repeat (apply additive_bind; [apply additive_lift|intros ?]).
  apply additive_for_each, additive_store_subscribers.
Qed.

Lemma additive_after_request o : additive (after_request o).
Proof.
  unfold after_request. apply additive_try_except.
  - destruct o; [apply additive_raise|apply additive_store_response].
  - intros. apply additive_warning.
Qed.

(** The handler catches every exception and only shows a warning. *)
Lemma try_except_warning_ok (c : M (gmap key Z * world) unit) s :
  (try_except c (λ e, in_world (st_warning (ExcWarning e))) s).1 = Ok ().
Proof.
  unfold try_except. destruct (c s) as [[[]|e] s']; [done|].
  unfold in_world, st_warning. done.
Qed.

(** No request is issued after the response has arrived. *)
Lemma store_subscribers_world ch s : (store_subscribers ch s).2.2 = s.2.
Proof.
  unfold store_subscribers, mbind, M_bind, lift, try_except, set_item, mret, M_ret.
  repeat (case_match; simplify_eq/=); done.
Qed.

Lemma for_each_store_world chs s : (for_each chs store_subscribers s).2.2 = s.2.
Proof.
  revert s. induction chs as [|ch chs IH]; intros s; [done|].
  simpl. unfold mbind, M_bind.
  pose proof (store_subscribers_world ch s) as H.
  destruct (store_subscribers ch s) as [[[]|e] s']; simpl in *; [|done].
  by rewrite IH.
Qed.

Lemma after_request_calls o s : calls (after_request o s).2.2 = calls s.2.
Proof.
  unfold after_request, try_except.
  destruct o as [e|resp].
  - done.
  - unfold store_response. destruct (negb (ok resp)); [done|].
    unfold mbind, M_bind, lift.
    destruct (resp_json resp) as [data|e]; [|done].
    destruct (py_get data "items" (VList [])) as [items|e]; [|done].
    destruct (py_iter items) as [chs|e]; [|done].
    pose proof (for_each_store_world chs s) as H.
    destruct (for_each chs store_subscribers s) as [[[]|e] s']; simpl in *; by rewrite H.
Qed.

Lemma after_request_spec o m w :
  after_request o (m, w) =
  (Ok (), (entries_of o ∪ m, World (calls w) (warnings w ++ warnings_of o))).
Proof.
  rewrite (additive_after_request o m w). cbn zeta.
  pose proof (try_except_warning_ok
    (match o with Throws e => raise e | Responds resp => store_response resp end)
    (∅, World [] [])) as Hok.
  pose proof (after_request_calls o (∅, World [] [])) as Hc.
  fold (after_request o) in Hok. unfold entries_of, warnings_of.
  destruct (after_request o (∅, World [] [])) as [r [δ w']]. simpl in *. subst r.
  rewrite Hc. by rewrite app_nil_r.
Qed.

Lemma fetch_batch_spec batch m w :
  let o := http (length (calls w)) (channels_request api_key batch) in
  fetch_batch http api_key batch (m, w) =
  (Ok (), (entries_of o ∪ m,
           World (calls w ++ [channels_request api_key batch]) (warnings w ++ warnings_of o))).
Proof.
  intros o.
  transitivity (after_request o
    (m, World (calls w ++ [channels_request api_key batch]) (warnings w))).
  - unfold fetch_batch, after_request, try_except, mbind, M_bind, in_world, requests_get.
    simpl. fold (channels_request api_key batch). fold o. by destruct o.
  - by rewrite after_request_spec.
Qed.

Lemma outcomes_cons base b bs :
  outcomes http api_key base (b :: bs) =
  http base (channels_request api_key b) :: outcomes http api_key (S base) bs.
Proof.
  unfold outcomes. simpl. rewrite Nat.add_0_r. f_equal.
  apply imap_ext. intros i x _. simpl. f_equal. lia.
Qed.

Lemma for_each_fetch_spec bs : ∀ m w,
  let os := outcomes http api_key (length (calls w)) bs in
  for_each bs (fetch_batch http api_key) (m, w) =
  (Ok (), (foldl (λ acc e, e ∪ acc) m (entries_of <$> os),
           World (calls w ++ (channels_request api_key <$> bs))
                 (warnings w ++ concat (warnings_of <$> os)))).
Proof.
  induction bs as [|b bs IH]; intros m w os.
  - destruct w. simpl. unfold mret, M_ret. by rewrite !app_nil_r.
  - subst os. rewrite outcomes_cons. simpl. unfold mbind, M_bind.
    rewrite fetch_batch_spec, IH. simpl.
    rewrite length_app, Nat.add_1_r. simpl.
    by rewrite <- !(assoc_L (++)).
Qed.

Lemma foldl_union_merge (es : list (gmap key Z)) :
  foldl (λ acc e, e ∪ acc) ∅ es = merge es.
Proof. done. Qed.

Lemma get_channel_subscribers_spec channel_ids w :
  channel_ids ≠ [] →
  let bs := batches (unique_ids set_order channel_ids) in
  let os := outcomes http api_key (length (calls w)) bs in
  get_channel_subscribers http set_order api_key channel_ids w =
  (Ok (merge (entries_of <$> os)),
   World (calls w ++ (channels_request api_key <$> bs))
         (warnings w ++ concat (warnings_of <$> os))).
Proof.
  intros Hne bs os. unfold get_channel_subscribers.
  destruct channel_ids; [done|].
  unfold with_local. fold bs. by rewrite for_each_fetch_spec.
Qed.

(** *** Batches *)

Lemma py_range_lookup stop step i :
  (0 < step)%nat → (i < (stop + step - 1) / step)%nat →
  py_range stop step !! i = Some (i * step)%nat.
Proof.
  intros Hs Hi. unfold py_range. rewrite list_lookup_fmap.
  by rewrite (proj2 (lookup_seq 0 _ i i) (conj eq_refl Hi)).
Qed.

Lemma batches_length (l : list string) :
  length (batches l) = ((length l + 49) / 50)%nat.
Proof.
  unfold batches, py_range. rewrite !length_fmap, length_seq. f_equal. lia.
Qed.

Lemma batches_lookup (l : list string) i :
  (i < length (batches l))%nat →
  batches l !! i = Some (take 50 (drop (i * 50) l)).
Proof.
  intros Hi. rewrite batches_length in Hi. unfold batches.
  rewrite list_lookup_fmap, py_range_lookup; [done|lia|].
  by replace (length l + 50 - 1)%nat with (length l + 49)%nat by lia.
Qed.




(** All batches but the last are full. *)
Lemma batches_full (l : list string) i b :
  batches l !! i = Some b → (S i < length (batches l))%nat → length b = 50%nat.
Proof.
  intros Hb Hi.
  rewrite batches_lookup in Hb by lia. simplify_eq.
  rewrite length_take, length_drop. rewrite batches_length in Hi.
  pose proof (Nat.div_mod_eq (length l + 49) 50).
  pose proof (Nat.mod_upper_bound (length l + 49) 50). lia.
Qed.


(** *** Merging *)

Lemma merge_snoc es e : merge (es ++ [e]) = e ∪ merge es.
Proof. unfold merge. by rewrite foldl_app. Qed.

Lemma lookup_merge_is_Some es k :
  is_Some (merge es !! k) ↔ ∃ e, e ∈ es ∧ is_Some (e !! k).
Proof.
  induction es as [|e es IH] using rev_ind.
  - unfold merge. simpl. rewrite lookup_empty. split; [by intros []|].
    intros (e & He & _). by apply elem_of_nil in He.
  - rewrite merge_snoc, lookup_union_is_Some, IH. split.
    + intros [H|(e' & He' & H)]; [exists e|exists e']; (split; [|done]);
        rewrite elem_of_app, list_elem_of_singleton; auto.
    + intros (e' & He' & H). apply elem_of_app in He' as [He'|He'].
      * right. eauto.
      * left. apply list_elem_of_singleton in He'. by subst.
Qed.



(** *** The ids requested *)



Section Ordered.
Hypothesis Hset : set_order_ok set_order.



Lemma unique_ids_empty channel_ids :
  truthy_ids channel_ids = [] → unique_ids set_order channel_ids = [].
Proof.
  intros Hnil. unfold unique_ids. rewrite Hnil.
  destruct (set_order []) as [|x l] eqn:E; [done|].
  assert (Hx : x ∈ set_order []) by (rewrite E; by left).
  apply (proj1 (proj2 (Hset []) x)) in Hx. by apply elem_of_nil in Hx.
Qed.


Lemma get_channel_subscribers_eq channel_ids w :
  let bs := batches (unique_ids set_order channel_ids) in
  let os := outcomes http api_key (length (calls w)) bs in
  get_channel_subscribers http set_order api_key channel_ids w =
  (Ok (merge (entries_of <$> os)),
   World (calls w ++ (channels_request api_key <$> bs))
         (warnings w ++ concat (warnings_of <$> os))).
Proof.
  destruct channel_ids as [|c l] eqn:E.
  - intros bs os. subst bs os. rewrite unique_ids_empty by done.
    destruct w. simpl. unfold mret, M_ret. by rewrite !app_nil_r.
  - rewrite <- E. apply get_channel_subscribers_spec. by subst.
Qed.

End Ordered.

(** *** Failed batches *)

Lemma after_failed o : failed o →
  entries_of o = ∅ ∧ warnings_of o = [failure_warning o].
Proof.
  unfold entries_of, warnings_of, after_request, try_except.
  destruct o as [e|resp]; simpl; [done|]. intros Hok.
  unfold store_response. by rewrite Hok.
Qed.


(** C4.  When no id is left after the falsy entries are dropped (the
    empty list included), the batcher returns the empty map and leaves
    the world as it was: no request is issued, no warning shown. *)
Theorem no_ids_no_calls (channel_ids : list (option string)) (w : world) :
  set_order_ok set_order →
  truthy_ids channel_ids = [] →
  get_channel_subscribers http set_order api_key channel_ids w = (Ok ∅, w).
Proof.
  intros Hset Hnil. rewrite get_channel_subscribers_eq by done.
  rewrite unique_ids_empty by done. destruct w. simpl. by rewrite !app_nil_r.
Qed.


(** C2, as amended.  A batch whose request raises, or whose response
    is not [ok] (status from 400 to 599), shows one warning, leaves the
    map as it was, and the loop goes on: the batcher always returns a
    map, every batch is requested, and every key a batch yields is in
    the map returned.  When the second of three batches fails, the map
    returned is made of the entries of the first and of the third. *)
Theorem best_effort (channel_ids : list (option string)) (w : world) :
  set_order_ok set_order →
  let bs := batches (unique_ids set_order channel_ids) in
  let os := outcomes http api_key (length (calls w)) bs in
  let r := get_channel_subscribers http set_order api_key channel_ids w in
  (∀ batch m w0,
     let o := http (length (calls w0)) (channels_request api_key batch) in
     failed o →
     fetch_batch http api_key batch (m, w0) =
     (Ok (), (m, World (calls w0 ++ [channels_request api_key batch])
                       (warnings w0 ++ [failure_warning o]))))
  ∧ r.1 = Ok (merge (entries_of <$> os))
  ∧ calls r.2 = calls w ++ (channels_request api_key <$> bs)
  ∧ warnings r.2 = warnings w ++ concat (warnings_of <$> os)
  ∧ (∀ i o, os !! i = Some o → failed o → warnings_of o = [failure_warning o])
  ∧ (∀ i o k, os !! i = Some o → is_Some (entries_of o !! k) →
              is_Some (merge (entries_of <$> os) !! k))
  ∧ (∀ o1 o2 o3, os = [o1; o2; o3] → failed o2 →
       r.1 = Ok (entries_of o3 ∪ entries_of o1)
       ∧ dom (entries_of o3 ∪ entries_of o1) = dom (entries_of o1) ∪ dom (entries_of o3)).
Proof.
  intros Hset bs os r. subst r. rewrite get_channel_subscribers_eq by done. simpl.
  split.
  { intros batch m w0 Hf. rewrite fetch_batch_spec.
    destruct (after_failed _ Hf) as [-> ->]. by rewrite (left_id_L ∅ (∪)). }
  split; [done|]. split; [done|]. split; [done|]. split.
  { intros i o _ Hf. by apply after_failed. }
  split.
  { intros i o k Ho Hk. apply lookup_merge_is_Some. exists (entries_of o).
    split; [|done]. apply list_elem_of_fmap. exists o. split; [done|].
    by eapply list_elem_of_lookup_2. }
  intros o1 o2 o3 Hos Hf. fold bs os. rewrite Hos.
  unfold merge. simpl. destruct (after_failed o2 Hf) as [-> _].
  rewrite (left_id_L ∅ (∪)), (right_id_L ∅ (∪)). split; [done|].
  rewrite dom_union_L. apply (comm_L (∪)).
Qed.

End Batcher.

(** ** Properties of the login gate *)

Section Gate.
Variables eu ep : string.

Lemma authenticated_init st : authenticated (init_session st) = authenticated st.
Proof.
  unfold init_session, authenticated.
  destruct (st !! "authenticated") eqn:E; rewrite ?E; [done|].
  by rewrite lookup_insert_eq.
Qed.

Lemma init_session_idem st : init_session (init_session st) = init_session st.
Proof.
  unfold init_session. destruct (st !! "authenticated") eqn:E; rewrite ?E; [done|].
  by rewrite lookup_insert_eq.
Qed.

Lemma truthy_str s : truthy (VStr s) = true ↔ s ≠ "".
Proof.
  simpl. destruct (String.eqb_spec s ""); simpl; split; congruence.
Qed.

Lemma sidebar_logged_out st btn :
  authenticated st = false →
  (btn = true ∧ credentials_match eu ep st ∧
   sidebar eu ep btn st =
     (<["authenticated" := VBool true]> st, login_form ++ [Success "로그인 성공"], Rerun))
  ∨ (¬ (btn = true ∧ credentials_match eu ep st) ∧
     ∃ rest, sidebar eu ep btn st = (st, login_form ++ rest, Proceed)).
Proof.
  intros Hst. unfold sidebar, credentials_match. rewrite Hst. cbn [negb].
  destruct btn; [|right; split; [intros [? _]; done|by eexists]].
  destruct (truthy (VStr eu)) eqn:Hu; cbn [andb].
  2:{ right. split; [|by eexists]. intros (_ & H & _). apply truthy_str in H. congruence. }
  destruct (truthy (VStr ep)) eqn:Hp; cbn [andb].
  2:{ right. split; [|by eexists]. intros (_ & _ & H & _). apply truthy_str in H. congruence. }
  apply truthy_str in Hu, Hp.
  destruct (String.eqb_spec (text_input "_login_user" st) eu) as [Eu|Eu]; cbn [andb].
  2:{ right. split; [|by eexists]. intros (_ & _ & _ & H & _). done. }
  destruct (String.eqb_spec (text_input "_login_pass" st) ep) as [Ep|Ep].
  2:{ right. split; [|by eexists]. intros (_ & _ & _ & _ & H). done. }
  left. done.
Qed.

Lemma init_session_authenticated st : authenticated st = true → init_session st = st.
Proof.
  unfold authenticated, init_session. by destruct (st !! "authenticated").
Qed.

Lemma text_input_init k st : k ≠ "authenticated" → text_input k (init_session st) = text_input k st.
Proof.
  intros Hk. unfold text_input, init_session.
  destruct (st !! "authenticated"); [done|]. by rewrite lookup_insert_ne.
Qed.

Lemma authenticated_insert_true st : authenticated (<["authenticated" := VBool true]> st) = true.
Proof. unfold authenticated. by rewrite lookup_insert_eq. Qed.

Lemma authenticated_insert_ne k v st :
  k ≠ "authenticated" → authenticated (<[k := v]> st) = authenticated st.
Proof. intros Hk. unfold authenticated. by rewrite lookup_insert_ne. Qed.

Lemma script_logged_in st btn :
  authenticated st = true →
  (script eu ep btn st).1.1 = st ∧ (script eu ep btn st).2 = Proceed.
Proof.
  intros Hst. unfold script, sidebar.
  rewrite (init_session_authenticated _ Hst), Hst. simpl. by rewrite Hst.
Qed.

Lemma script_logged_out st btn :
  authenticated st = false →
  (btn = true ∧ credentials_match eu ep st ∧
   script eu ep btn st =
     (<["authenticated" := VBool true]> (init_session st),
      login_form ++ [Success "로그인 성공"], Rerun))
  ∨ (¬ (btn = true ∧ credentials_match eu ep st) ∧
     ∃ rest, script eu ep btn st =
       (init_session st,
        (login_form ++ rest) ++
          [Title "접근 제한"; InfoBox "이 앱을 사용하려면 좌측 사이드바에서 로그인해주세요."],
        Stop)).
Proof.
  intros Hst.
  assert (Hi : authenticated (init_session st) = false) by by rewrite authenticated_init.
  assert (Hc : credentials_match eu ep (init_session st) ↔ credentials_match eu ep st).
  { unfold credentials_match. by rewrite !text_input_init. }
  unfold script.
  destruct (sidebar_logged_out (init_session st) btn Hi) as [(Hb & Hm & ->)|(Hn & rest & ->)].
  - left. rewrite <- Hc. done.
  - right. rewrite Hi. cbn [negb]. rewrite <- Hc. split; [done|by eexists].
Qed.

Lemma settle_logged_out st btn :
  authenticated st = false →
  (btn = true ∧ credentials_match eu ep st ∧ authenticated (settle eu ep btn st).1.1 = true)
  ∨ (¬ (btn = true ∧ credentials_match eu ep st) ∧ (settle eu ep btn st).1.1 = init_session st).
Proof.
  intros Hst. unfold settle.
  destruct (script_logged_out st btn Hst) as [(Hb & Hm & ->)|(Hn & rest & ->)].
  - left. split; [done|]. split; [done|].
    rewrite (proj1 (script_logged_in _ false (authenticated_insert_true _))).
    apply authenticated_insert_true.
  - right. done.
Qed.

Lemma step_stays_out st ev :
  eu = "" ∨ ep = "" → authenticated st = false → authenticated (step eu ep st ev) = false.
Proof.
  intros Hcfg Hst.
  assert (Hno : ∀ s, ¬ credentials_match eu ep s).
  { intros s (? & ? & _). destruct Hcfg; congruence. }
  assert (Hs : ∀ btn s, authenticated s = false →
                        authenticated (settle eu ep btn s).1.1 = false).
  { intros btn s Hs. destruct (settle_logged_out s btn Hs) as [(_ & Hm & _)|(_ & ->)].
    - by destruct (Hno s).
    - by rewrite authenticated_init. }
  destruct ev; simpl; rewrite ?Hst; try done; apply Hs; try done;
    by rewrite authenticated_insert_ne.
Qed.

Lemma run_events_stays_out st evs :
  eu = "" ∨ ep = "" → authenticated st = false →
  authenticated (run_events eu ep st evs) = false.
Proof.
  intros Hcfg. revert st. induction evs as [|ev evs IH]; intros st Hst; [done|].
  simpl. apply IH. by apply step_stays_out.
Qed.

(** C1.  In a run of the script that starts logged out, the session
    becomes authenticated exactly when the login button is pressed, both
    configured credentials are non-empty and the texts of the two fields
    are equal to them; otherwise the session state is left as it was.
    When a configured credential is empty, no sequence of interactions
    makes the session authenticated. *)
Theorem login_gate (st : gmap string value) (login_btn : bool) :
  authenticated st = false →
  let st' := (script eu ep login_btn st).1.1 in
  (authenticated st' = true ↔
     login_btn = true ∧ eu ≠ "" ∧ ep ≠ "" ∧
     text_input "_login_user" st = eu ∧ text_input "_login_pass" st = ep)
  ∧ (authenticated st' = false → st' = init_session st)
  ∧ (eu = "" ∨ ep = "" → ∀ evs, authenticated (run_events eu ep st evs) = false).
Proof.
  intros Hst st'. subst st'.
  destruct (script_logged_out st login_btn Hst) as [(Hb & Hm & ->)|(Hn & rest & ->)];
    cbn [fst].
  - rewrite authenticated_insert_true. split; [|split].
    + split; [intros _; split; [done|apply Hm]|done].
    + done.
    + intros Hcfg. destruct Hm as (? & ? & _). destruct Hcfg; congruence.
  - rewrite authenticated_init, Hst. split; [|split].
    + split; [done|]. intros [Hb Hm]. destruct Hn. split; [done|]. apply Hm.
    + done.
    + intros Hcfg evs. by apply run_events_stays_out.
Qed.

(** C8.  [logout] sets [authenticated] to [False], removes the two
    stored login fields and leaves the other keys alone; the next run of
    the script, whatever the button, shows the login form and stops at
    the gate, before the content. *)
Theorem logout_clears (st : gmap string value) :
  let st' := logout st in
  st' !! "authenticated" = Some (VBool false)
  ∧ st' !! "_login_user" = None
  ∧ st' !! "_login_pass" = None
  ∧ (∀ k, k ≠ "authenticated" → k ≠ "_login_user" → k ≠ "_login_pass" →
          st' !! k = st !! k)
  ∧ ∀ login_btn, ∃ shown,
      script eu ep login_btn st' = (st', shown, Stop)
      ∧ login_form ⊆ shown
      ∧ Title "접근 제한" ∈ shown.
Proof.
  intros st'.
  assert (Ha : st' !! "authenticated" = Some (VBool false)).
  { subst st'. unfold logout. by simplify_map_eq. }
  assert (Hu : st' !! "_login_user" = None).
  { subst st'. unfold logout. by simplify_map_eq. }
  assert (Hp : st' !! "_login_pass" = None).
  { subst st'. unfold logout. by simplify_map_eq. }
  split; [done|]. split; [done|]. split; [done|].
  split; [intros; subst st'; unfold logout; by simplify_map_eq|].
  clearbody st'. intros btn.
  assert (Hout : authenticated st' = false) by (unfold authenticated; by rewrite Ha).
  assert (Hini : init_session st' = st') by (unfold init_session; by rewrite Ha).
  destruct (script_logged_out st' btn Hout) as [(_ & Hm & _)|(_ & rest & ->)].
  - exfalso. destruct Hm as (Hne & _ & Hm & _).
    unfold text_input in Hm. rewrite Hu in Hm. congruence.
  - rewrite Hini. eexists. split; [done|]. split; [|set_solver].
    intros x Hx. rewrite !elem_of_app. by do 2 left.
Qed.
End Gate.

(** ** Properties of a rendered row *)

Section Rows.
Variable py_repr : value → string.




Lemma render_row_thumbnail subs_map i it r :
  render_row py_repr subs_map i (VDict it) = Ok r →
  select_thumbnail (default (VDict []) (dict_get "snippet" it)) = Ok (thumbnail r).
Proof.
  unfold render_row. simpl.
  repeat (match goal with
          | |- context [mbind _ ?x] => destruct x eqn:?; simpl; try done
          end).
  by intros [= <-].
Qed.

(** The part of the metrics line for an optional count: nothing when
    it is [None]. *)
Lemma optional_part_spec (label : string) (x : value) (parts0 ps : list string) :
  (if x is VNone then Ok parts0
   else l ← format_views py_repr x; Ok (parts0 ++ [label +:+ l])) = Ok ps →
  ∃ L, ps = parts0 ++ L ∧
       (if x is VNone then L = []
        else ∃ l, format_views py_repr x = Ok l ∧ L = [label +:+ l]).
Proof.
  destruct x; cbn -[format_views].
  1: { intros [= <-]. exists []. by rewrite app_nil_r. }
  all: destruct (format_views py_repr _) as [fv|] eqn:Hfv; cbn -[format_views]; [|done].
  all: intros [= <-]; eexists; split; [reflexivity|]; by exists fv.
Qed.

Lemma metric_parts_spec channel views likes comments subs ps :
  metric_parts py_repr channel views likes comments subs = Ok ps →
  ∃ v L C S,
    format_views py_repr views = Ok v
    ∧ ps = [py_str py_repr channel; "👁 " +:+ v] ++ L ++ C ++ S
    ∧ (if likes is VNone then L = []
       else ∃ l, format_views py_repr likes = Ok l ∧ L = ["👍 " +:+ l])
    ∧ (if comments is VNone then C = []
       else ∃ c, format_views py_repr comments = Ok c ∧ C = ["💬 " +:+ c])
    ∧ match subs with
      | None => S = []
      | Some n => ∃ s, format_views py_repr (VInt n) = Ok s ∧ S = ["👤 " +:+ s +:+ "명"]
      end.
Proof.
  unfold metric_parts.
  destruct (format_views py_repr views) as [v|] eqn:Hv; [|done].
  cbn [mbind result_bind].
  set (p0 := [py_str py_repr channel; "👁 " +:+ v]).
  destruct (if likes is VNone then Ok p0 else _) as [p1|] eqn:H1; [|done].
  apply optional_part_spec in H1 as (L & -> & HL).
  cbn [mbind result_bind].
  destruct (if comments is VNone then Ok (p0 ++ L) else _) as [p2|] eqn:H2; [|done].
  apply optional_part_spec in H2 as (C & -> & HC).
  cbn [mbind result_bind].
  intros H. exists v, L, C.
  destruct subs as [n|].
  - destruct (format_views py_repr (VInt n)) as [s|] eqn:Hs; [|done].
    cbn [mbind result_bind] in H.
    injection H as <-. exists ["👤 " +:+ s +:+ "명"].
    split; [done|]. split; [subst p0; by rewrite <- ?app_assoc|]. eauto.
  - injection H as <-. exists [].
    split; [done|]. split; [subst p0; by rewrite ?app_nil_r, <- ?app_assoc|]. eauto.
Qed.

(** C10.  In a rendered row the metrics line starts with the channel
    name and the view count, and the view count of an item without
    [viewCount] is the formatted value of the string 0, that is, 0; the
    like count, the comment count and the subscriber count each add a
    part when present and nothing when absent. *)
Theorem metrics_line (subs_map : gmap key Z) (i : nat) (it : list (string * value)) (r : row) :
  render_row py_repr subs_map i (VDict it) = Ok r →
  ∃ sn st k v L C S,
    default (VDict []) (dict_get "snippet" it) = VDict sn
    ∧ default (VDict []) (dict_get "statistics" it) = VDict st
    ∧ hash_key (default VNone (dict_get "channelId" sn)) = Ok k
    ∧ parts r =
        [py_str py_repr (default (VStr "(채널 정보 없음)") (dict_get "channelTitle" sn));
         "👁 " +:+ v] ++ L ++ C ++ S
    ∧ compact_line r = join " · " (parts r)
    ∧ format_views py_repr (default (VStr "0") (dict_get "viewCount" st)) = Ok v
    ∧ (dict_get "viewCount" st = None → v = "0")
    ∧ (dict_get "likeCount" st = None → L = [])
    ∧ (dict_get "commentCount" st = None → C = [])
    ∧ (subs_map !! k = None → S = [])
    ∧ (∀ x, dict_get "likeCount" st = Some x → x ≠ VNone →
            ∃ l, format_views py_repr x = Ok l ∧ L = ["👍 " +:+ l])
    ∧ (∀ x, dict_get "commentCount" st = Some x → x ≠ VNone →
            ∃ c, format_views py_repr x = Ok c ∧ C = ["💬 " +:+ c])
    ∧ (∀ n, subs_map !! k = Some n →
            ∃ s, format_views py_repr (VInt n) = Ok s ∧ S = ["👤 " +:+ s +:+ "명"]).
Proof.
  unfold render_row. simpl.
  destruct (default (VDict []) (dict_get "snippet" it)) as [| | | | |sn] eqn:Hsn;
    simpl; try done.
  destruct (select_thumbnail (VDict sn)) as [cell|]; simpl; [|done].
  destruct (default (VDict []) (dict_get "statistics" it)) as [| | | | |st] eqn:Hst;
    simpl; try done.
  destruct (hash_key (default VNone (dict_get "channelId" sn))) as [k|] eqn:Hk;
    simpl; [|done].
  destruct (metric_parts _ _ _ _ _ _) as [ps|] eqn:Hps; simpl; [|done].
  intros [= <-]. simpl.
  apply metric_parts_spec in Hps as (v & L & C & S & Hv & -> & HL & HC & HS).
  exists sn, st, k, v, L, C, S.
  split; [done|]. split; [done|]. split; [done|]. split; [done|]. split; [done|].
  split; [done|]. split.
  { intros Hnone. rewrite Hnone in Hv. vm_compute in Hv. by simplify_eq. }
  split; [by intros Hnone; rewrite Hnone in HL|].
  split; [by intros Hnone; rewrite Hnone in HC|].
  split; [by intros Hnone; rewrite Hnone in HS|].
  split.
  { intros x Hx Hne. rewrite Hx in HL. simpl in HL. by destruct x. }
  split.
  { intros x Hx Hne. rewrite Hx in HC. simpl in HC. by destruct x. }
  intros n Hn. by rewrite Hn in HS.
Qed.

End Rows.

(** ** Decimal numerals read back *)

Section Numerals.
















End Numerals.

(** ** More properties of the number formatter *)

Section Thresholds.
Variable py_repr : value → string.



Lemma format_views_man v t :
  10000 ≤ v < 100000000 →
  (∀ t', 2 * Z.abs (1000 * t' - v) ≤ 1000 → t' = t) →
  format_views py_repr (VInt v) =
  Ok (pretty (t / 10) +:+ "." +:+ pretty (t mod 10) +:+ "만").
Proof.
  intros Hv Ht. rewrite format_views_int.
  destruct (Z.leb_spec 100000000 v); [lia|].
  destruct (Z.leb_spec 10000 v); [|lia].
  destruct (int_truediv_1e4 v Hv) as [x Hx]. rewrite Hx. simpl.
  destruct (format_1f_truediv v 10000 1000 eq_refl eq_refl eq_refl eq_refl
              ltac:(lia) x Hx) as (t' & -> & Ht').
  rewrite (Ht t' Ht'). by rewrite !string_app_assoc.
Qed.

Lemma format_views_eok v t :
  100000000 ≤ v < 2 ^ 53 →
  (∀ t', 2 * Z.abs (10000000 * t' - v) ≤ 10000000 → t' = t) →
  format_views py_repr (VInt v) =
  Ok (pretty (t / 10) +:+ "." +:+ pretty (t mod 10) +:+ "억").
Proof.
  intros Hv Ht. rewrite format_views_int.
  destruct (Z.leb_spec 100000000 v); [|lia].
  destruct (int_truediv_1e8 v) as [Hok _]; [lia|].
  destruct Hok as [x Hx]; [unfold overflow_threshold; lia|]. rewrite Hx. simpl.
  destruct (format_1f_truediv v 100000000 10000000 eq_refl eq_refl eq_refl eq_refl
              Hv x Hx) as (t' & -> & Ht').
  rewrite (Ht t' Ht'). by rewrite !string_app_assoc.
Qed.

(** X21.  At the thresholds: just below 100,000,000 the formatter
    prints 10000.0만, the rounding of the one decimal carrying the
    number to five digits, and from 100,000,000 on it prints 1.0억;
    from 10,000 on it prints 1.0만. *)
Theorem format_views_at_thresholds (v : Z) :
  (99999500 < v < 100000000 → format_views py_repr (VInt v) = Ok "10000.0만")
  ∧ (100000000 ≤ v < 105000000 → format_views py_repr (VInt v) = Ok "1.0억")
  ∧ (10000 ≤ v < 10500 → format_views py_repr (VInt v) = Ok "1.0만").
Proof.
  split; [|split].
  - intros Hv. apply (format_views_man v 100000); [lia|]. intros t' Ht'. lia.
  - intros Hv. apply (format_views_eok v 10); [lia|]. intros t' Ht'. lia.
  - intros Hv. apply (format_views_man v 10); [lia|]. intros t' Ht'. lia.
Qed.

End Thresholds.

Section Thousands.

Lemma string_app_cons c (s t : string) : String c s +:+ t = String c (s +:+ t).
Proof. done. Qed.

Lemma rev_app_app s t : String.rev_app s t = String.rev s +:+ t.
Proof.
  unfold String.rev. revert t. induction s as [|c s IH]; intros t; [done|].
  simpl. rewrite (IH (String c t)), (IH (String c "")).
  by rewrite string_app_assoc.
Qed.

Lemma string_rev_app (s t : string) : String.rev (s +:+ t) = String.rev t +:+ String.rev s.
Proof.
  unfold String.rev. revert t. induction s as [|c s IH]; intros t.
  - change ("" +:+ t) with t. simpl. by rewrite string_app_nil_r.
  - rewrite string_app_cons. simpl.
    rewrite (rev_app_app (s +:+ t)), (rev_app_app s).
    unfold String.rev. rewrite IH. by rewrite string_app_assoc.
Qed.










End Thousands.

(** ** The records of a batch *)

Section Records.
Variable http : nat → request → http_outcome.
Variable set_order : list string → list string.





Lemma store_not_dict ch s : is_dict ch = false → store_subscribers ch s = (Raise AttributeError, s).
Proof. intros H. by destruct ch. Qed.

Lemma store_truthy_keys ch s :
  truthy_keys s.1 → truthy_keys (store_subscribers ch s).2.1.
Proof.
  intros Hs. unfold store_subscribers, mbind, M_bind, lift.
  destruct (py_get ch "id" VNone) as [cid|]; [|done].
  destruct (py_get (py_or ch (VDict [])) "statistics" (VDict [])) as [stats|]; [|done].
  destruct (py_get stats "subscriberCount" VNone) as [subs|]; [|done].
  destruct (truthy cid) eqn:Hc; cbn [andb]; [|done].
  destruct (negb _); [|done].
  unfold try_except, mbind, M_bind, lift.
  destruct (py_int subs) as [n|]; [|done].
  destruct (hash_key cid) as [k|] eqn:Hk; [|done].
  unfold set_item. cbn [fst snd].
  destruct Hs as (H1 & H2 & H3).
  assert (k ≠ KNone ∧ k ≠ KInt 0 ∧ k ≠ KStr "") as (? & ? & ?).
  { destruct cid as [|[]|z|c| |]; simpl in *; simplify_eq; try done.
    - split; [done|]. split; [|done]. intros [= ->]. done.
    - split; [done|]. split; [done|]. intros [= ->]. done. }
  unfold truthy_keys. by rewrite !lookup_insert_ne.
Qed.


Lemma for_each_app {S A} (l1 l2 : list A) (f : A → M S unit) s :
  for_each (l1 ++ l2) f s =
  match for_each l1 f s with
  | (Ok _, s') => for_each l2 f s'
  | r => r
  end.
Proof.
  revert s. induction l1 as [|x l1 IH]; intros s; [done|].
  simpl. unfold mbind, M_bind. destruct (f x s) as [[[]|e] s1]; [|done].
  apply IH.
Qed.

Lemma after_carries resp chs s :
  carries resp chs →
  after_request (Responds resp) s =
  match for_each chs store_subscribers s with
  | (Ok _, s') => (Ok (), s')
  | (Raise e, s') => (Ok (), (s'.1, World (calls s'.2) (warnings s'.2 ++ [ExcWarning e])))
  end.
Proof.
  intros (Hok & d0 & Hj & Hi).
  unfold after_request, try_except, store_response. rewrite Hok. cbn [negb].
  unfold mbind, M_bind, lift, resp_json. rewrite Hj. cbn [py_get]. rewrite Hi.
  cbn [default from_option id py_iter].
  by destruct (for_each chs store_subscribers s) as [[[]|e] s'].
Qed.





(** X18.  A record that is not an object, null included, ends the
    processing of its batch: the records before it are kept, those
    after it are not read, and exactly one warning is shown, for the
    [AttributeError] of the record when the records before it raised
    nothing. *)
Theorem malformed_record_cuts_batch resp resp' chs1 bad chs2 :
  carries resp (chs1 ++ bad :: chs2) → carries resp' chs1 → is_dict bad = false →
  entries_of (Responds resp) = entries_of (Responds resp')
  ∧ length (warnings_of (Responds resp)) = 1%nat
  ∧ (warnings_of (Responds resp') = [] →
     warnings_of (Responds resp) = [ExcWarning AttributeError]).
Proof.
  intros Hr Hr' Hbad.
  unfold entries_of, warnings_of.
  rewrite (after_carries resp _ _ Hr), (after_carries resp' _ _ Hr').
  rewrite for_each_app.
  pose proof (for_each_store_world chs1 (∅, World [] [])) as Hw.
  destruct (for_each chs1 store_subscribers (∅, World [] [])) as [[[]|e] [m1 w1]];
    simpl in Hw; subst w1.
  - simpl. unfold mbind, M_bind. rewrite (store_not_dict bad _ Hbad). done.
  - simpl. done.
Qed.

Lemma for_each_truthy_keys chs s :
  truthy_keys s.1 → truthy_keys (for_each chs store_subscribers s).2.1.
Proof.
  revert s. induction chs as [|ch chs IH]; intros s Hs; [done|].
  simpl. unfold mbind, M_bind.
  pose proof (store_truthy_keys ch s Hs) as H1.
  destruct (store_subscribers ch s) as [[[]|e] s1]; [|done]. by apply IH.
Qed.

Lemma entries_truthy_keys o : truthy_keys (entries_of o).
Proof.
  unfold entries_of, after_request, try_except.
  destruct o as [e|resp]; [done|].
  unfold store_response.
  destruct (negb (ok resp)); [done|].
  unfold mbind, M_bind, lift.
  destruct (resp_json resp) as [data|]; [|done].
  destruct (py_get data "items" (VList [])) as [items|]; [|done].
  destruct (py_iter items) as [chs|]; [|done].
  pose proof (for_each_truthy_keys chs (∅, World [] []) ltac:(done)) as H.
  by destruct (for_each chs store_subscribers (∅, World [] [])) as [[[]|e] s'].
Qed.

Lemma merge_truthy_keys es : Forall truthy_keys es → truthy_keys (merge es).
Proof.
  unfold merge. generalize (∅ : gmap key Z) (ltac:(done) : truthy_keys ∅).
  induction es as [|e es IH]; intros m Hm Hes; [done|].
  apply Forall_cons in Hes as [He Hes]. simpl. apply IH; [|done].
  destruct He as (? & ? & ?), Hm as (? & ? & ?).
  unfold truthy_keys. rewrite !lookup_union_None. done.
Qed.

Lemma subscribers_truthy_keys api_key ids w m :
  (get_channel_subscribers http set_order api_key ids w).1 = Ok m → truthy_keys m.
Proof.
  destruct ids as [|c ids].
  - intros [= <-]. done.
  - rewrite get_channel_subscribers_spec by done. intros [= <-].
    apply merge_truthy_keys, Forall_fmap, Forall_true. intros o. apply entries_truthy_keys.
Qed.

End Records.

(** ** The content of the page *)

Section Page.
Variable py_repr : value → string.
Variable upper : string → string.
Variable http : nat → request → http_outcome.
Variable set_order : list string → list string.
Variable cfg : config.

Lemma in_world_videos api_key rc n (p : list block) w :
  in_world (get_most_popular_videos py_repr http api_key rc n) (p, w) =
  ((get_most_popular_videos py_repr http api_key rc n w).1,
   (p, World (calls w ++ [videos_request api_key rc n]) (warnings w))).
Proof.
  unfold in_world. cbn [fst snd].
  pose proof (get_most_popular_videos_world py_repr http api_key rc n w) as H.
  destruct (get_most_popular_videos py_repr http api_key rc n w) as [r w'].
  simpl in *. by subst.
Qed.

Lemma load_items_spec api_key rc n p w :
  load_items py_repr http api_key rc n (p, w) =
  match (get_most_popular_videos py_repr http api_key rc n w).1 with
  | Ok items =>
      (Ok (Some items), (p, World (calls w ++ [videos_request api_key rc n]) (warnings w)))
  | Raise e =>
      (Ok None, (p ++ [error_box e],
                 World (calls w ++ [videos_request api_key rc n]) (warnings w)))
  end.
Proof.
  unfold load_items, try_except, mbind, M_bind. rewrite in_world_videos.
  destruct (get_most_popular_videos py_repr http api_key rc n w).1 as [items|e]; [done|].
  by destruct e.
Qed.

Lemma dashboard_start api_key rc n refresh p w :
  api_key ≠ "" →
  dashboard py_repr upper http set_order api_key rc n refresh (p, w) =
  let p1 := p ++ toast_of refresh in
  let w1 := World (calls w ++ [videos_request api_key rc n]) (warnings w) in
  match (get_most_popular_videos py_repr http api_key rc n w).1 with
  | Raise e => (Ok (Some Stop), (p1 ++ [error_box e], w1))
  | Ok items =>
      if truthy items then
        (cids ← lift (channel_ids_of items);
         match mapM channel_id_arg cids with
         | None => mret None
         | Some channel_ids =>
             subs_map ← in_world (get_channel_subscribers http set_order api_key channel_ids);
             its ← lift (py_iter items);
             say (Subheading ("지역: " +:+ upper rc +:+ " • 총 "
                              +:+ pretty (length its) +:+ "개"));;
             for_each (imap (λ i it, (S i, it)) its) (show_row py_repr subs_map);;
             say (SuccessMessage "불러오기 완료 ✅");;
             mret (Some Proceed)
         end) (p1, w1)
      else
        (Ok (Some Stop),
         (p1 ++ [WarningMessage
                   "표시할 동영상이 없습니다. 지역 코드를 확인하거나 잠시 후 다시 시도해주세요."], w1))
  end.
Proof.
  intros Hkey. apply truthy_str in Hkey.
  unfold dashboard. unfold mbind at 1. unfold M_bind at 1.
  assert (Ht : (if refresh then say (Toast "캐시를 비웠습니다. 다시 불러오는 중…") else mret ()) (p, w)
               = (Ok (), (p ++ toast_of refresh, w))).
  { destruct refresh; [done|]. unfold mret, M_ret. simpl. by rewrite app_nil_r. }
  rewrite Ht, Hkey. cbn [negb].
  unfold mbind at 1. unfold M_bind at 1. rewrite load_items_spec. cbn zeta.
  destruct (get_most_popular_videos py_repr http api_key rc n w).1 as [items|e]; [|done].
  destruct (truthy items); done.
Qed.


Lemma content_spec st n refresh p w :
  content py_repr upper http set_order cfg st n refresh (p, w) =
  match region upper st with
  | Ok rc =>
      dashboard py_repr upper http set_order (API_KEY py_repr cfg) rc n refresh
        (p ++ control_bar, w)
  | Raise e => (Raise e, (p ++ take 4 control_bar, w))
  end.
Proof.
  unfold content, mbind, M_bind, say, lift. cbn [fst snd].
  destruct (region upper st) as [rc|e].
  - by rewrite <- !(assoc_L (++)).
  - by rewrite <- !(assoc_L (++)).
Qed.

Lemma dashboard_no_key rc n refresh p w :
  dashboard py_repr upper http set_order "" rc n refresh (p, w) =
  (Ok (Some Stop),
   (p ++ toast_of refresh ++
      [ErrorMessage "YOUTUBE_API_KEY가 설정되지 않았습니다.
- 배포/클라우드: .streamlit/secrets.toml에 YOUTUBE_API_KEY를 설정하세요.
- 로컬 개발: .env 파일에 YOUTUBE_API_KEY를 설정하세요."], w)).
Proof.
  unfold dashboard, mbind, M_bind, say, mret, M_ret.
  destruct refresh; simpl; by rewrite <- ?(assoc_L (++)).
Qed.

(** X7.  Without an API key the content issues no request; when the
    region is defined it ends at [st.stop()] after the notice of line
    236. *)
Theorem no_key_no_request st n refresh p w :
  API_KEY py_repr cfg = "" →
  let r := content py_repr upper http set_order cfg st n refresh (p, w) in
  r.2.2 = w
  ∧ ∀ rc, region upper st = Ok rc →
      ∃ msg, r = (Ok (Some Stop),
                  (p ++ control_bar ++ toast_of refresh ++ [ErrorMessage msg], w)).
Proof.
  intros Hkey r. subst r. rewrite content_spec, Hkey.
  destruct (region upper st) as [rc|e].
  - rewrite dashboard_no_key. split; [done|]. intros ? [= <-].
    eexists. by rewrite <- !(assoc_L (++)).
  - split; [done|]. intros rc [=].
Qed.

Lemma get_most_popular_videos_throws api_key rc n w e :
  http (length (calls w)) (videos_request api_key rc n) = Throws e →
  (get_most_popular_videos py_repr http api_key rc n w).1 = Raise e.
Proof.
  intros H. unfold get_most_popular_videos, mbind, M_bind, requests_get.
  fold (videos_request api_key rc n). by rewrite H.
Qed.

(** X8.  When the primary fetch raises, the run shows one error box
    with the exception and ends at [st.stop()]: the only request issued
    is that of the fetch, and no subscriber count is asked for.  The
    box is that of line 247 for an [HTTPError], which a response that
    is not [ok] gives with its status code, and that of line 250 for
    every other exception: one raised by [requests.get], a body that
    does not decode, an [error] payload. *)
Theorem fetch_failure_stops api_key rc n refresh p w :
  api_key ≠ "" →
  let req := videos_request api_key rc n in
  let stopped_with b :=
    dashboard py_repr upper http set_order api_key rc n refresh (p, w) =
    (Ok (Some Stop),
     (p ++ toast_of refresh ++ [b], World (calls w ++ [req]) (warnings w))) in
  (∀ e, (get_most_popular_videos py_repr http api_key rc n w).1 = Raise e →
        stopped_with (error_box e))
  ∧ (∀ e, http (length (calls w)) req = Throws e → stopped_with (error_box e))
  ∧ (∀ resp, http (length (calls w)) req = Responds resp → ok resp = false →
       stopped_with
         (HttpErrorBox (HTTPError ("YouTube API HTTP " +:+ pretty (status_code resp) +:+ ": "
                                   +:+ py_str py_repr (error_data resp)))))
  ∧ (∀ resp, http (length (calls w)) req = Responds resp → ok resp = true →
       json resp = None → stopped_with (LoadErrorBox JSONDecodeError))
  ∧ (∀ resp d err, http (length (calls w)) req = Responds resp → ok resp = true →
       json resp = Some (VDict d) → dict_get "error" d = Some err →
       stopped_with (LoadErrorBox (RuntimeError ("YouTube API Error: " +:+ py_str py_repr err)))).
Proof.
  intros Hkey req stopped_with.
  assert (H : ∀ e, (get_most_popular_videos py_repr http api_key rc n w).1 = Raise e →
                   stopped_with (error_box e)).
  { intros e He. unfold stopped_with. rewrite dashboard_start by done. cbn zeta.
    rewrite He. by rewrite <- (assoc_L (++)). }
  split; [done|]. split; [|split; [|split]].
  - intros e He. apply H. by apply get_most_popular_videos_throws.
  - intros resp Hr Hok.
    apply (H (HTTPError _)). by apply get_most_popular_videos_not_ok.
  - intros resp Hr Hok Hj. apply (H JSONDecodeError).
    unfold get_most_popular_videos, mbind, M_bind, requests_get, lift, resp_json.
    fold (videos_request api_key rc n). fold req. by rewrite Hr, Hok, Hj.
  - intros resp d err Hr Hok Hj He. apply (H (RuntimeError _)).
    rewrite (get_most_popular_videos_dict py_repr http api_key rc n w resp d Hr Hok Hj).
    by rewrite He.
Qed.

(** X9.  When the body of an [ok] response has no [error] and its
    [items] are absent, null, an empty list or another falsy value, the
    run shows the notice of line 254 and ends at [st.stop()] after the
    one request of the fetch. *)
Theorem no_videos_stops api_key rc n refresh p w resp d :
  api_key ≠ "" →
  http (length (calls w)) (videos_request api_key rc n) = Responds resp →
  ok resp = true → json resp = Some (VDict d) → dict_get "error" d = None →
  truthy (default (VList []) (dict_get "items" d)) = false →
  dashboard py_repr upper http set_order api_key rc n refresh (p, w) =
  (Ok (Some Stop),
   (p ++ toast_of refresh ++
      [WarningMessage "표시할 동영상이 없습니다. 지역 코드를 확인하거나 잠시 후 다시 시도해주세요."],
    World (calls w ++ [videos_request api_key rc n]) (warnings w))).
Proof.
  intros Hkey Hr Hok Hj He Hf. rewrite dashboard_start by done. cbn zeta.
  rewrite (get_most_popular_videos_dict py_repr http api_key rc n w resp d Hr Hok Hj).
  rewrite He, Hf. by rewrite <- (assoc_L (++)).
Qed.

(** X3.  A run of the script that starts logged out never reaches the
    content: it ends at the gate or, after a successful login, at the
    rerun, and it issues no request and shows no content block
    whatever the buttons pressed. *)
Theorem gate_blocks_content login_btn refresh n st s :
  authenticated st = false →
  ∃ st' shown c,
    page_run py_repr upper http set_order cfg login_btn refresh n st s
      = (st', shown, (Ok (Some c), s))
    ∧ c ≠ Proceed
    ∧ (c = Stop → st' = init_session st).
Proof.
  intros Hst. unfold page_run.
  destruct (script_logged_out (EXPECTED_USER py_repr cfg) (EXPECTED_PASS py_repr cfg)
              st login_btn Hst) as [(_ & _ & ->)|(_ & rest & ->)].
  - eexists _, _, Rerun. done.
  - eexists _, _, Stop. done.
Qed.


Lemma length_omap_le {A B} (f : A → option B) (l : list A) :
  (length (omap f l) ≤ length l)%nat.
Proof.
  induction l as [|x l IH]; [done|].
  change (omap f (x :: l)) with (match f x with Some y => y :: omap f l | None => omap f l end).
  destruct (f x); cbn [length]; lia.
Qed.

Lemma length_truthy_ids ids : (length (truthy_ids ids) ≤ length ids)%nat.
Proof. apply length_omap_le. Qed.

Lemma length_unique_ids ids :
  set_order_ok set_order → (length (unique_ids set_order ids) ≤ length ids)%nat.
Proof.
  intros Hset. etrans; [|apply length_truthy_ids].
  apply submseteq_length, NoDup_submseteq; [apply Hset|].
  intros x. apply Hset.
Qed.

Lemma subscriber_calls api_key ids w :
  set_order_ok set_order →
  (length (calls (get_channel_subscribers http set_order api_key ids w).2)
   ≤ length (calls w) + (length ids + 49) / 50)%nat.
Proof.
  intros Hset.
  rewrite (get_channel_subscribers_eq http set_order api_key Hset). cbn [snd calls].
  rewrite length_app, length_fmap, batches_length.
  pose proof (length_unique_ids ids Hset) as Hl.
  apply Nat.add_le_mono_l, Nat.Div0.div_le_mono. lia.
Qed.

(** X14.  The batcher issues at most one request per started group of
    50 ids it is given, duplicates and falsy ids included; it keeps the
    requests issued before, and its own all go to the channels
    endpoint. *)
Theorem requests_bound api_key ids w :
  set_order_ok set_order →
  let r := get_channel_subscribers http set_order api_key ids w in
  (length (calls r.2) ≤ length (calls w) + (length ids + 49) / 50)%nat
  ∧ (length (calls w) ≤ length (calls r.2))%nat
  ∧ take (length (calls w)) (calls r.2) = calls w
  ∧ Forall (λ req, url req = channels_url) (drop (length (calls w)) (calls r.2)).
Proof.
  intros Hset r. subst r.
  rewrite (get_channel_subscribers_eq http set_order api_key Hset). cbn [snd calls].
  rewrite length_app, length_fmap, batches_length.
  pose proof (length_unique_ids ids Hset) as Hl.
  split; [|split; [lia|split]].
  - apply Nat.add_le_mono_l, Nat.Div0.div_le_mono. lia.
  - by rewrite take_app_length.
  - rewrite drop_app_length. apply Forall_fmap, Forall_true. done.
Qed.

Lemma for_each_show_row subs_map xs rows p w :
  mapM (λ x : nat * value, render_row py_repr subs_map x.1 x.2) xs = Ok rows →
  for_each xs (show_row py_repr subs_map) (p, w) = (Ok (), (p ++ row_blocks rows, w)).
Proof.
  revert rows p. induction xs as [|x xs IH]; intros rows p H.
  - injection H as <-. unfold row_blocks. simpl. unfold mret, M_ret. by rewrite app_nil_r.
  - simpl in H. unfold mbind at 1 in H. unfold result_bind at 1 in H.
    destruct (render_row py_repr subs_map x.1 x.2) as [r|e] eqn:Er; [|done].
    unfold mbind at 1 in H. unfold result_bind at 1 in H.
    destruct (mapM _ xs) as [rs|e] eqn:Ers; [|done].
    injection H as <-.
    simpl. unfold mbind at 1. unfold M_bind at 1.
    unfold show_row at 1. unfold mbind, M_bind, lift, say. rewrite Er. cbn [fst snd].
    fold (@mbind (M (list block * world)) _).
    rewrite (IH rs) by done. unfold row_blocks. simpl.
    by rewrite <- !(assoc_L (++)).
Qed.

Lemma mapM_result_length {A B} (f : A → result B) xs ys :
  mapM f xs = Ok ys → length ys = length xs.
Proof.
  revert ys. induction xs as [|x xs IH]; intros ys H.
  - by injection H as <-.
  - simpl in H. unfold mbind at 1 in H. unfold result_bind at 1 in H.
    destruct (f x); [|done].
    unfold mbind at 1 in H. unfold result_bind at 1 in H.
    destruct (mapM f xs) eqn:E; [|done]. injection H as <-. simpl. f_equal. by apply IH.
Qed.

Lemma mapM_result_lookup {A B} (f : A → result B) xs ys i y :
  mapM f xs = Ok ys → ys !! i = Some y → ∃ x, xs !! i = Some x ∧ f x = Ok y.
Proof.
  revert ys i. induction xs as [|x xs IH]; intros ys i H Hy.
  - injection H as <-. done.
  - simpl in H. unfold mbind at 1 in H. unfold result_bind at 1 in H.
    destruct (f x) eqn:Ex; [|done].
    unfold mbind at 1 in H. unfold result_bind at 1 in H.
    destruct (mapM f xs) eqn:E; [|done]. injection H as <-.
    destruct i as [|i]; simpl in *.
    + injection Hy as <-. by exists x.
    + by eapply IH.
Qed.

Lemma mapM_option_length {A B} (f : A → option B) xs ys :
  mapM f xs = Some ys → length ys = length xs.
Proof. intros H. symmetry. by eapply length_mapM. Qed.

Lemma render_row_heading subs_map i it r :
  render_row py_repr subs_map i it = Ok r →
  ∃ rest, heading r = "**" +:+ pretty i +:+ ". " +:+ rest.
Proof.
  unfold render_row.
  repeat (match goal with
          | |- context [mbind _ ?x] => destruct x eqn:?; cbn [mbind result_bind]; try done
          end).
  intros [= <-]. cbn [heading]. case_match; eexists; reflexivity.
Qed.


Lemma get_channel_subscribers_ok api_key ids w :
  ids ≠ [] → ∃ m, (get_channel_subscribers http set_order api_key ids w).1 = Ok m.
Proof.
  intros Hne. rewrite (get_channel_subscribers_spec http set_order api_key ids w Hne).
  by eexists.
Qed.

(** X10.  The page of a fetch that returns a non-empty list of items
    whose channel ids are strings or falsy: the subscriber counts are
    asked for after the fetch, with at most one more request when there
    are at most 50 items; when every row renders, the page shows the
    header with the number of items, then one row and one separator
    per item, in the order of the response and numbered from 1, then
    the closing notice, and the run reaches the end of the script. *)
Theorem page_of_results api_key rc n refresh p w its cids ids :
  api_key ≠ "" → its ≠ [] →
  (get_most_popular_videos py_repr http api_key rc n w).1 = Ok (VList its) →
  channel_ids_of (VList its) = Ok cids →
  mapM channel_id_arg cids = Some ids →
  let w1 := World (calls w ++ [videos_request api_key rc n]) (warnings w) in
  let fetched := get_channel_subscribers http set_order api_key ids w1 in
  ∃ subs_map,
    fetched.1 = Ok subs_map
    ∧ (set_order_ok set_order → (length its ≤ 50)%nat →
       (length (calls fetched.2) ≤ length (calls w) + 2)%nat)
    ∧ ∀ rows,
        mapM (λ x : nat * value, render_row py_repr subs_map x.1 x.2) (ranked its) = Ok rows →
        dashboard py_repr upper http set_order api_key rc n refresh (p, w) =
          (Ok (Some Proceed),
           (p ++ toast_of refresh
              ++ [Subheading ("지역: " +:+ upper rc +:+ " • 총 "
                              +:+ pretty (length its) +:+ "개")]
              ++ row_blocks rows ++ [SuccessMessage "불러오기 완료 ✅"],
            fetched.2))
        ∧ length rows = length its
        ∧ ∀ i r, rows !! i = Some r →
            ∃ it rest, its !! i = Some it
                       ∧ render_row py_repr subs_map (S i) it = Ok r
                       ∧ heading r = "**" +:+ pretty (S i) +:+ ". " +:+ rest.
Proof.
  intros Hkey Hne Hitems Hcids Hids w1 fetched.
  assert (Hlen : length ids = length its).
  { rewrite (mapM_option_length _ _ _ Hids).
    unfold channel_ids_of in Hcids. simpl in Hcids.
    by rewrite (mapM_result_length _ _ _ Hcids). }
  destruct (get_channel_subscribers_ok api_key ids w1) as [subs_map Hsubs].
  { intros ->. by destruct its. }
  exists subs_map. split; [done|]. split.
  { intros Hset H50.
    pose proof (subscriber_calls api_key ids w1 Hset) as Hb. fold fetched in Hb.
    subst w1. cbn [calls] in Hb. rewrite length_app in Hb. cbn [length] in Hb.
    assert ((length ids + 49) / 50 ≤ 1)%nat; [|lia].
    apply Nat.lt_succ_r, Nat.Div0.div_lt_upper_bound. lia. }
  intros rows Hrows.
  assert (Hl : length rows = length its).
  { rewrite (mapM_result_length _ _ _ Hrows). unfold ranked. by rewrite length_imap. }
  split; [|split; [done|]].
  - rewrite dashboard_start by done. cbn zeta. rewrite Hitems.
    assert (Ht : truthy (VList its) = true) by by destruct its.
    rewrite Ht. fold w1.
    unfold mbind at 1. unfold M_bind at 1. unfold lift at 1. rewrite Hcids, Hids.
    unfold mbind at 1. unfold M_bind at 1.
    unfold in_world at 1. cbn [fst snd]. fold fetched.
    change (fetched.1 = Ok subs_map) in Hsubs. clearbody fetched.
    destruct fetched as [fr fw]. simpl in Hsubs. subst fr.
    unfold mbind at 1. unfold M_bind at 1. unfold lift at 1. cbn [py_iter].
    unfold mbind at 1. unfold M_bind at 1. unfold say at 1. cbn [fst snd].
    unfold mbind at 1. unfold M_bind at 1.
    fold (ranked its). rewrite (for_each_show_row subs_map _ rows) by done.
    unfold mbind, M_bind, say, mret, M_ret. cbn [fst snd].
    by rewrite <- !(assoc_L (++)).
  - intros i r Hr.
    destruct (mapM_result_lookup _ _ _ _ _ Hrows Hr) as ([j it] & Hx & Hrr).
    unfold ranked in Hx. rewrite list_lookup_imap in Hx.
    destruct (its !! i) as [it'|] eqn:Ei; [|done]. simpl in Hx. injection Hx as <- <-.
    simpl in Hrr. destruct (render_row_heading _ _ _ _ Hrr) as [rest Hrest].
    by exists it', rest.
Qed.

End Page.

(** ** Warnings of the batcher *)

Section Warnings.
Variable http : nat → request → http_outcome.
Variable set_order : list string → list string.

Lemma warnings_of_le o : (length (warnings_of o) ≤ 1)%nat.
Proof.
  unfold warnings_of, after_request, try_except.
  destruct o as [e|resp]; [done|].
  unfold store_response. destruct (negb (ok resp)); [done|].
  unfold mbind, M_bind, lift.
  destruct (resp_json resp) as [data|]; [|done].
  destruct (py_get data "items" (VList [])) as [items|]; [|done].
  destruct (py_iter items) as [chs|]; [|done].
  pose proof (for_each_store_world chs (∅, World [] [])) as H.
  destruct (for_each chs store_subscribers (∅, World [] [])) as [[[]|e] [m w']];
    simpl in H; subst w'; simpl; lia.
Qed.

Lemma length_concat_le {A} (ls : list (list A)) :
  Forall (λ l, (length l ≤ 1)%nat) ls → (length (concat ls) ≤ length ls)%nat.
Proof.
  induction 1 as [|l ls Hl _ IH]; [done|]. simpl. rewrite length_app. lia.
Qed.

(** X23.  The batcher shows at most one warning per request it issues,
    after the warnings shown before. *)
Theorem warnings_bound api_key ids w :
  set_order_ok set_order →
  let r := get_channel_subscribers http set_order api_key ids w in
  (length (warnings r.2) - length (warnings w) ≤ length (calls r.2) - length (calls w))%nat
  ∧ take (length (warnings w)) (warnings r.2) = warnings w
  ∧ (length (calls r.2) = length (calls w) → r.2 = w).
Proof.
  intros Hset r. subst r.
  rewrite (get_channel_subscribers_eq http set_order api_key Hset). cbn [snd calls warnings].
  set (bs := batches (unique_ids set_order ids)).
  assert (Hlen : (length (concat (warnings_of <$> outcomes http api_key (length (calls w)) bs))
                  ≤ length bs)%nat).
  { etrans; [apply length_concat_le|].
    - apply Forall_fmap, Forall_true. intros o. apply warnings_of_le.
    - rewrite length_fmap. unfold outcomes. by rewrite length_imap. }
  rewrite !length_app, length_fmap.
  split; [lia|]. split; [by rewrite take_app_length|].
  intros Hc. assert (Hbs : bs = []) by (apply length_zero_iff_nil; lia).
  rewrite Hbs. simpl. rewrite !app_nil_r. by destruct w.
Qed.
End Warnings.

(** ** Rows and subscriber counts *)

Section Subscribers.
Variable py_repr : value → string.
Variable http : nat → request → http_outcome.
Variable set_order : list string → list string.

(** X13.  A row whose item has no channel id, or a falsy one, shows no
    subscriber count whatever the batcher returned: it is rendered as
    with an empty map, since no key of the map is falsy. *)
Theorem rows_without_channel api_key ids w m i item :
  (get_channel_subscribers http set_order api_key ids w).1 = Ok m →
  (∀ sn cid, py_get item "snippet" (VDict []) = Ok sn →
             py_get sn "channelId" VNone = Ok cid → truthy cid = false) →
  render_row py_repr m i item = render_row py_repr ∅ i item.
Proof.
  intros Hm Hfalsy. apply subscribers_truthy_keys in Hm as (H1 & H2 & H3).
  unfold render_row.
  destruct (py_get item "snippet" (VDict [])) as [sn|] eqn:Hsn; [|done].
  cbn [mbind result_bind].
  destruct (py_get item "statistics" (VDict [])) as [stats|]; [|done].
  cbn [mbind result_bind].
  destruct (py_get sn "title" _) as [title|]; [|done]. cbn [mbind result_bind].
  destruct (py_get sn "channelTitle" _) as [channel|]; [|done]. cbn [mbind result_bind].
  destruct (py_get sn "channelId" VNone) as [cid|] eqn:Hcid; [|done].
  cbn [mbind result_bind].
  specialize (Hfalsy sn cid eq_refl Hcid).
  destruct (select_thumbnail sn) as [cell|]; [|done]. cbn [mbind result_bind].
  destruct (py_get stats "viewCount" _) as [views|]; [|done]. cbn [mbind result_bind].
  destruct (py_get stats "likeCount" _) as [likes|]; [|done]. cbn [mbind result_bind].
  destruct (py_get stats "commentCount" _) as [comments|]; [|done]. cbn [mbind result_bind].
  destruct (hash_key cid) as [k|] eqn:Hk; [|done]. cbn [mbind result_bind].
  assert (Hlook : m !! k = None).
  { destruct cid as [|[]|z|c|l|d]; simpl in *; simplify_eq; try done.
    - apply negb_false_iff, Z.eqb_eq in Hfalsy. by subst.
    - apply negb_false_iff in Hfalsy. apply String.eqb_eq in Hfalsy. by subst. }
  rewrite Hlook. by rewrite lookup_empty.
Qed.

(** X15.  The ids of a batch can be read back from the [id] parameter
    of its request, as long as no id contains a comma. *)
Theorem ids_round_trip api_key (batch : list string) :
  batch ≠ [] → comma_free batch →
  split_commas (param "id" (params (channels_request api_key batch))) = batch.
Proof.
  intros Hne Hfree.
  change (param "id" (params (channels_request api_key batch))) with (join "," batch).
  assert (Hsplit : ∀ s, no_comma s = true → ∀ t,
            split_commas (s +:+ String "," t) = s :: split_commas t).
  { induction s as [|c s IH]; intros Hs t; [done|].
    simpl in Hs. apply andb_true_iff in Hs as [Hc Hs]. apply negb_true_iff in Hc.
    change (String c s +:+ String "," t) with (String c (s +:+ String "," t)).
    simpl. by rewrite Hc, (IH Hs). }
  assert (Hone : ∀ s, no_comma s = true → split_commas s = [s]).
  { induction s as [|c s IH]; intros Hs; [done|].
    simpl in Hs. apply andb_true_iff in Hs as [Hc Hs]. apply negb_true_iff in Hc.
    simpl. by rewrite Hc, (IH Hs). }
  induction Hfree as [|s b Hs Hb IH]; [done|].
  destruct b as [|s' b].
  - simpl. by apply Hone.
  - change (join "," (s :: s' :: b)) with (s +:+ String "," (join "," (s' :: b))).
    rewrite Hsplit by done. f_equal. by apply IH.
Qed.

End Subscribers.

(** ** The session, the settings and the gate *)

Section Session.
Variable py_repr : value → string.
Variable upper : string → string.
Variable http : nat → request → http_outcome.
Variable set_order : list string → list string.
Variable cfg : config.



Lemma str_strip_blank s : blank s → str_strip s = "".
Proof. unfold blank, str_strip. by intros ->. Qed.

Lemma _get_secret_unset name : unset py_repr cfg name → _get_secret py_repr cfg name "" = "".
Proof.
  unfold unset, _get_secret. cbn zeta.
  assert (He : match environ cfg !! name with Some s => blank s | None => True end →
               str_strip (default "" (environ cfg !! name)) = "").
  { destruct (environ cfg !! name); [apply str_strip_blank|done]. }
  destruct (secrets cfg) as [d|]; [|done].
  destruct (dict_get name d); [apply str_strip_blank|done].
Qed.

(** X2.  Unless both AUTH_USERNAME and AUTH_PASSWORD are set to
    something else than white space, nobody can log in: the session
    stays logged out under every sequence of interactions, and every
    run of the script stops at the gate, with nothing put on the page
    below it and no request issued. *)
Theorem unset_credentials_lock_out st evs :
  unset py_repr cfg "AUTH_USERNAME" ∨ unset py_repr cfg "AUTH_PASSWORD" →
  authenticated st = false →
  let st' := run_events (EXPECTED_USER py_repr cfg) (EXPECTED_PASS py_repr cfg) st evs in
  authenticated st' = false
  ∧ ∀ login_btn refresh n s,
      (page_run py_repr upper http set_order cfg login_btn refresh n st' s).2 = (Ok (Some Stop), s).
Proof.
  intros Hunset Hst st'.
  assert (Hcfg : EXPECTED_USER py_repr cfg = "" ∨ EXPECTED_PASS py_repr cfg = "").
  { destruct Hunset as [H|H]; [left|right]; by apply _get_secret_unset. }
  assert (Hout : authenticated st' = false) by by apply run_events_stays_out.
  split; [done|]. intros btn refresh n s. unfold page_run.
  destruct (script_logged_out (EXPECTED_USER py_repr cfg) (EXPECTED_PASS py_repr cfg)
              st' btn Hout) as [(_ & Hm & _)|(_ & rest & ->)]; [|done].
  destruct Hm as (? & ? & _). destruct Hcfg; congruence.
Qed.

Lemma mapM_result_app {A B} (f : A → result B) l1 l2 ys1 ys2 :
  mapM f l1 = Ok ys1 → mapM f l2 = Ok ys2 → mapM f (l1 ++ l2) = Ok (ys1 ++ ys2).
Proof.
  revert ys1. induction l1 as [|x l1 IH]; intros ys1 H1 H2.
  - by injection H1 as <-.
  - simpl in H1 |- *. unfold mbind at 1 in H1. unfold result_bind at 1 in H1.
    unfold mbind at 1. unfold result_bind at 1.
    destruct (f x) as [y|]; [|done].
    unfold mbind at 1 in H1. unfold result_bind at 1 in H1.
    destruct (mapM f l1) as [ys|] eqn:E; [|done]. injection H1 as <-.
    by rewrite (IH ys eq_refl H2).
Qed.

Lemma channel_ids_of_app its1 its2 c1 c2 :
  channel_ids_of (VList its1) = Ok c1 → channel_ids_of (VList its2) = Ok c2 →
  channel_ids_of (VList (its1 ++ its2)) = Ok (c1 ++ c2).
Proof.
  unfold channel_ids_of. cbn [py_iter mbind result_bind]. apply mapM_result_app.
Qed.

(** X11.  Line 259 tolerates an item whose snippet is null, or another
    falsy value that is no object, and line 269 does not: in the list
    of channel ids [None] stands for the item, and the row of the item
    raises an [AttributeError]. *)
Theorem falsy_snippet_breaks_row d sn :
  dict_get "snippet" d = Some sn → truthy sn = false → is_dict sn = false →
  channel_ids_of (VList [VDict d]) = Ok [VNone]
  ∧ (∀ its1 its2 c1 c2,
       channel_ids_of (VList its1) = Ok c1 → channel_ids_of (VList its2) = Ok c2 →
       channel_ids_of (VList (its1 ++ VDict d :: its2)) = Ok (c1 ++ VNone :: c2))
  ∧ ∀ subs_map i, render_row py_repr subs_map i (VDict d) = Raise AttributeError.
Proof.
  intros Hsn Hf Hd.
  assert (H1 : channel_ids_of (VList [VDict d]) = Ok [VNone]).
  { unfold channel_ids_of. cbn [py_iter mbind result_bind mapM py_get].
    rewrite Hsn. cbn [default from_option id]. unfold py_or. rewrite Hf. done. }
  split; [done|]. split.
  - intros its1 its2 c1 c2 E1 E2.
    apply channel_ids_of_app; [done|].
    by apply (channel_ids_of_app [VDict d] its2 [VNone] c2).
  - intros subs_map i. unfold render_row. cbn [py_get]. rewrite Hsn.
    cbn [default from_option id mbind result_bind].
    destruct (default (VDict []) (dict_get "statistics" d)); by destruct sn.
Qed.

End Session.

(** ** The region controls *)

Section Regions.
Variable py_repr : value → string.
Variable upper : string → string.
Variable cfg : config.
Hypothesis Hupper : upper_ok upper.

Lemma ascii_upper_char_idem c : ascii_upper_char (ascii_upper_char c) = ascii_upper_char c.
Proof. by destruct c as [[] [] [] [] [] [] [] []]. Qed.

Lemma ascii_upper_idem s : ascii_upper (ascii_upper s) = ascii_upper s.
Proof. induction s as [|c s IH]; [done|]. simpl. by rewrite ascii_upper_char_idem, IH. Qed.

Lemma is_ascii_upper_char c :
  (nat_of_ascii c <? 128)%nat = true → (nat_of_ascii (ascii_upper_char c) <? 128)%nat = true.
Proof. by destruct c as [[] [] [] [] [] [] [] []]. Qed.

Lemma is_ascii_upper s : is_ascii s = true → is_ascii (ascii_upper s) = true.
Proof.
  induction s as [|c s IH]; [done|]. simpl. intros [Hc Hs]%andb_true_iff.
  by rewrite is_ascii_upper_char, IH.
Qed.

Lemma upper_upper_ascii s : is_ascii s = true → upper (upper s) = ascii_upper s.
Proof.
  intros Hs. destruct Hupper as [Ha _].
  rewrite (Ha s Hs), (Ha _ (is_ascii_upper s Hs)). apply ascii_upper_idem.
Qed.

Lemma upper_nonempty s : s ≠ "" → upper s ≠ "".
Proof. intros Hs He. by apply Hupper in He. Qed.

Lemma region_of_custom st s :
  st !! "region_custom" = Some (VStr s) → s ≠ "" → region upper st = Ok (upper s).
Proof.
  intros Hc Hs. unfold region, session_attr. rewrite Hc. cbn [mbind result_bind].
  by rewrite (proj2 (truthy_str s) Hs).
Qed.

Lemma region_codes_upper code : code ∈ REGION_CODES → code ≠ "" ∧ is_ascii code = true ∧ ascii_upper code = code.
Proof.
  unfold REGION_CODES, REGION_OPTIONS. cbn [fmap list_fmap fst].
  rewrite !elem_of_cons, elem_of_nil. intros H.
  repeat (destruct H as [->|H]; [by vm_compute|]). done.
Qed.

(** X5.  The region follows the control used last.  After a code is
    picked in the selectbox the region is that code, upper-cased; the
    codes offered are upper-case already.  After the custom field is
    edited the region is its text, upper-cased, and KR when the field
    was emptied, whatever the selectbox holds. *)
Theorem region_follows_last_control st :
  (∀ code, code ≠ "" →
     ∃ st', region_step py_repr upper st (SelectRegion code) = Ok st'
            ∧ region upper st' = Ok (upper (upper code))
            ∧ (code ∈ REGION_CODES → region upper st' = Ok code))
  ∧ (∀ s, ∃ st', region_step py_repr upper st (TypeRegion s) = Ok st'
            ∧ region upper st' = Ok (upper (upper (if decide (s = "") then "KR" else s)))
            ∧ (is_ascii s = true →
               region upper st' = Ok (if decide (s = "") then "KR" else ascii_upper s))).
Proof.
  split.
  - intros code Hc. eexists. split.
    { unfold region_step, _on_select_region_change, session_attr.
      rewrite lookup_insert_eq. cbn [mbind result_bind py_str]. done. }
    assert (Hr : region upper (<["region_custom" := VStr (upper code)]>
                                 (<["region_sel" := VStr code]> st)) = Ok (upper (upper code))).
    { apply region_of_custom; [by rewrite lookup_insert_eq|by apply upper_nonempty]. }
    split; [done|]. intros Hin. rewrite Hr.
    destruct (region_codes_upper code Hin) as (_ & Ha & Hu).
    by rewrite upper_upper_ascii, Hu.
  - intros s. eexists. split.
    { unfold region_step, _on_custom_region_change, session_attr.
      rewrite lookup_insert_eq. cbn [mbind result_bind]. done. }
    rewrite insert_insert_eq.
    assert (Hs : py_str py_repr (py_or (VStr s) (VStr "KR")) = if decide (s = "") then "KR" else s).
    { unfold py_or. case_decide as E.
      - subst. done.
      - by rewrite (proj2 (truthy_str s) E). }
    rewrite Hs.
    assert (Hne : (if decide (s = "") then "KR" else s) ≠ "") by by case_decide.
    assert (Hr : region upper (<["region_custom" :=
                    VStr (upper (if decide (s = "") then "KR" else s))]> st)
                 = Ok (upper (upper (if decide (s = "") then "KR" else s)))).
    { apply region_of_custom; [by rewrite lookup_insert_eq|by apply upper_nonempty]. }
    split; [done|]. intros Ha. rewrite Hr. f_equal.
    case_decide; [by rewrite upper_upper_ascii|by apply upper_upper_ascii].
Qed.

Lemma DEFAULT_REGION_nonempty : DEFAULT_REGION py_repr cfg ≠ "".
Proof.
  unfold DEFAULT_REGION. cbn zeta.
  destruct (truthy (VStr (_get_secret py_repr cfg "REGION_CODE" "KR"))) eqn:E; [|done].
  by apply truthy_str.
Qed.

Lemma region_inv_init st : region_inv st →
  ∃ c s, init_region py_repr upper cfg st !! "region_sel" = Some (VStr c)
         ∧ init_region py_repr upper cfg st !! "region_custom" = Some (VStr s) ∧ s ≠ ""
         ∧ (st !! "region_custom" = None → s = upper (DEFAULT_REGION py_repr cfg)).
Proof.
  intros [Hsel Hcus]. unfold init_region.
  set (st1 := match st !! "region_sel" with Some _ => st | None => _ end).
  assert (H1 : ∃ c, st1 !! "region_sel" = Some (VStr c)).
  { subst st1. destruct (st !! "region_sel") as [v|] eqn:E.
    - destruct (Hsel v eq_refl) as [c ->]. by exists c.
    - exists "KR". by rewrite lookup_insert_eq. }
  assert (H2 : st1 !! "region_custom" = st !! "region_custom").
  { subst st1. destruct (st !! "region_sel"); [done|]. by rewrite lookup_insert_ne. }
  destruct H1 as [c Hc]. cbn zeta. rewrite H2.
  destruct (st !! "region_custom") as [v|] eqn:E.
  - destruct (Hcus v eq_refl) as (s & -> & Hs). exists c, s. rewrite H2. done.
  - rewrite (proj2 (truthy_str _) DEFAULT_REGION_nonempty).
    exists c, (upper (DEFAULT_REGION py_repr cfg)).
    rewrite lookup_insert_ne by done. rewrite lookup_insert_eq.
    split; [done|]. split; [done|]. split; [|done].
    apply upper_nonempty, DEFAULT_REGION_nonempty.
Qed.

Lemma region_step_set st ev :
  offered ev → region_set st → ∃ st', region_step py_repr upper st ev = Ok st' ∧ region_set st'.
Proof.
  intros Hev [[c Hc] (s & Hs & Hne)]. destruct ev as [code|t].
  - destruct (region_codes_upper code Hev) as (Hcode & _).
    eexists. split.
    { unfold region_step, _on_select_region_change, session_attr.
      rewrite lookup_insert_eq. cbn [mbind result_bind py_str]. done. }
    split.
    + exists code. rewrite lookup_insert_ne by done. by rewrite lookup_insert_eq.
    + exists (upper code). rewrite lookup_insert_eq. split; [done|]. by apply upper_nonempty.
  - eexists. split.
    { unfold region_step, _on_custom_region_change, session_attr.
      rewrite lookup_insert_eq. cbn [mbind result_bind]. done. }
    split.
    + exists c. by rewrite !lookup_insert_ne by done.
    + eexists. rewrite lookup_insert_eq. split; [done|].
      apply upper_nonempty. unfold py_or.
      destruct (truthy (VStr t)) eqn:E; [|done]. by apply truthy_str.
Qed.

Lemma region_events_set evs : ∀ st,
  Forall offered evs → region_set st →
  ∃ st', region_events py_repr upper st evs = Ok st' ∧ region_set st'.
Proof.
  induction evs as [|ev evs IH]; intros st Hevs Hst.
  - by exists st.
  - apply Forall_cons in Hevs as [Hev Hevs].
    destruct (region_step_set st ev Hev Hst) as (st1 & Hs1 & Hset1).
    destruct (IH st1 Hevs Hset1) as (st' & Hs' & Hset').
    exists st'. split; [|done]. simpl. by rewrite Hs1.
Qed.

(** X6.  Once the script has run, whatever the user does with the two
    region controls, the region is defined and not empty: the custom
    code is always set to a string that is not empty, the region is its
    upper-cased text, and the fallbacks of line 221 to the selectbox
    and to KR are never used.  Before any interaction the custom code
    is the upper-cased default region. *)
Theorem region_always_set st evs :
  region_inv st → Forall offered evs →
  ∃ st' s,
    region_events py_repr upper (init_region py_repr upper cfg st) evs = Ok st'
    ∧ st' !! "region_custom" = Some (VStr s) ∧ s ≠ ""
    ∧ init_region py_repr upper cfg st' = st'
    ∧ region upper st' = Ok (upper s) ∧ upper s ≠ ""
    ∧ (evs = [] → st !! "region_custom" = None → s = upper (DEFAULT_REGION py_repr cfg)).
Proof.
  intros Hinv Hevs.
  destruct (region_inv_init st Hinv) as (c & s0 & Hc & Hs0 & Hne0 & Hdef).
  destruct (region_events_set evs (init_region py_repr upper cfg st) Hevs) as
    (st' & Hrun & [[c' Hc'] (s & Hs & Hne)]).
  { split; [by exists c|by exists s0]. }
  exists st', s. split; [done|]. split; [done|]. split; [done|]. split.
  { unfold init_region. rewrite Hc'. cbn zeta. by rewrite Hs. }
  split; [by apply region_of_custom|]. split; [by apply upper_nonempty|].
  intros -> Hnone. simpl in Hrun. injection Hrun as <-.
  rewrite Hs0 in Hs. injection Hs as <-. by apply Hdef.
Qed.

End Regions.

(** ** Settings are stripped *)

Section Strip.
Variable py_repr : value → string.
Variable cfg : config.

Lemma skip_spaces_clean bw s : starts_space bw s = false → skip_spaces bw s = s.
Proof.
  destruct s as [|a [|b [|c s]]]; cbn [starts_space skip_spaces]; try done;
    destruct (space1 a); try done; cbn [orb];
    destruct (if bw then space2 b a else space2 a b); try done; cbn [orb].
  by destruct (if bw then space3 c b a else space3 a b c).
Qed.

Lemma skip_spaces_spec bw n : ∀ s, (String.length s ≤ n)%nat →
  starts_space bw (skip_spaces bw s) = false
  ∧ ∃ w, s = w +:+ skip_spaces bw s.
Proof.
  induction n as [|n IH]; intros s Hn.
  { destruct s; [|simpl in Hn; lia]. split; [done|by exists ""]. }
  destruct s as [|a s1]; [split; [done|by exists ""]|].
  simpl in Hn.
  destruct (space1 a) eqn:E1.
  { destruct (IH s1 ltac:(lia)) as [H (w & Hw)].
    cbn [skip_spaces starts_space]. rewrite E1. split; [done|]. exists (String a w).
    rewrite string_app_cons. by f_equal. }
  destruct s1 as [|b s2].
  { cbn [skip_spaces starts_space]. rewrite E1. split; [cbn [starts_space]; by rewrite E1|by exists ""]. }
  simpl in Hn.
  destruct (if bw then space2 b a else space2 a b) eqn:E2.
  { destruct (IH s2 ltac:(lia)) as [H (w & Hw)].
    cbn [skip_spaces starts_space]. rewrite E1, E2. split; [done|]. exists (String a (String b w)).
    rewrite !string_app_cons. by do 2 f_equal. }
  destruct s2 as [|c s3].
  { cbn [skip_spaces starts_space]. rewrite E1, E2. split; [cbn [starts_space]; by rewrite E1, E2|by exists ""]. }
  simpl in Hn.
  destruct (if bw then space3 c b a else space3 a b c) eqn:E3.
  { destruct (IH s3 ltac:(lia)) as [H (w & Hw)].
    cbn [skip_spaces starts_space]. rewrite E1, E2, E3. split; [done|]. exists (String a (String b (String c w))).
    rewrite !string_app_cons. by do 3 f_equal. }
  cbn [skip_spaces starts_space]. rewrite E1, E2, E3. split; [cbn [starts_space]; by rewrite E1, E2, E3|by exists ""].
Qed.

Lemma starts_space_prefix bw r v :
  starts_space bw (r +:+ v) = false → starts_space bw r = false.
Proof.
  destruct r as [|a [|b [|c r]]]; try done.
  - change (String a "" +:+ v) with (String a v). cbn [starts_space].
    destruct (space1 a); [done|]. by rewrite orb_false_r.
  - change (String a (String b "") +:+ v) with (String a (String b v)). cbn [starts_space].
    destruct (space1 a); [done|]. cbn [orb].
    destruct (if bw then space2 b a else space2 a b); [done|]. done.
Qed.

(** A stripped string neither starts nor ends with white space. *)
Lemma str_strip_clean s :
  starts_space false (str_strip s) = false
  ∧ starts_space true (String.rev (str_strip s)) = false.
Proof.
  unfold str_strip.
  set (t := skip_spaces false s).
  destruct (skip_spaces_spec false (String.length s) s ltac:(done)) as [Ht _]. fold t in Ht.
  destruct (skip_spaces_spec true (String.length (String.rev t)) (String.rev t) ltac:(done))
    as [Hu (w & Hw)].
  set (u := skip_spaces true (String.rev t)) in *.
  assert (Hr : t = String.rev u +:+ String.rev w).
  { rewrite <- string_rev_app, <- Hw. by rewrite string_rev_involutive. }
  split.
  - apply (starts_space_prefix false _ (String.rev w)). by rewrite <- Hr.
  - by rewrite string_rev_involutive.
Qed.

Lemma str_strip_idem s : str_strip (str_strip s) = str_strip s.
Proof.
  destruct (str_strip_clean s) as [H1 H2].
  unfold str_strip at 1.
  rewrite (skip_spaces_clean false _ H1), (skip_spaces_clean true _ H2).
  apply string_rev_involutive.
Qed.

(** X1.  [_get_secret] returns a value that neither starts nor ends
    with white space, and that [strip] leaves as it is.  The value is
    taken from the secrets when they can be read and hold the name,
    also when the value there is blank; otherwise from the
    environment, and from the default when the environment does not
    hold the name. *)
Theorem secret_lookup name dflt :
  let r := _get_secret py_repr cfg name dflt in
  starts_space false r = false
  ∧ starts_space true (String.rev r) = false
  ∧ str_strip r = r
  ∧ (∀ d v, secrets cfg = Ok d → dict_get name d = Some v →
       r = str_strip (py_str py_repr v))
  ∧ ((∀ d, secrets cfg = Ok d → dict_get name d = None) →
       r = str_strip (default dflt (environ cfg !! name))).
Proof.
  intros r.
  assert (Hr : ∃ s, r = str_strip s).
  { subst r. unfold _get_secret.
    destruct (secrets cfg) as [d|]; [destruct (dict_get name d)|]; by eexists. }
  destruct Hr as [s Hs].
  split; [rewrite Hs; apply str_strip_clean|].
  split; [rewrite Hs; apply str_strip_clean|].
  split; [rewrite Hs; apply str_strip_idem|].
  subst r. unfold _get_secret. split.
  - by intros d v -> ->.
  - intros H. destruct (secrets cfg) as [d|]; [|done]. by rewrite (H d eq_refl).
Qed.

End Strip.

(** ** Rows of well-formed items *)

Section Rendering.
Variable py_repr : value → string.





End Rendering.

(** ** The properties on the sample inputs *)

(** Keeping one occurrence of each string is an enumeration of the set. *)
Lemma remove_dups_ok : set_order_ok remove_dups.
Proof.
  intros l. split; [apply NoDup_remove_dups|]. intros x. apply elem_of_remove_dups.
Qed.




(** The gate on a session that holds the right credentials in its two
    fields, with the credentials configured and with none configured. *)
Lemma login_gate_witness :
  authenticated (<["_login_user" := VStr "admin"]> (<["_login_pass" := VStr "secret"]> ∅)) = false
  ∧ authenticated (script "admin" "secret" true
      (<["_login_user" := VStr "admin"]> (<["_login_pass" := VStr "secret"]> ∅))).1.1 = true
  ∧ authenticated (run_events "" "secret"
      (<["_login_user" := VStr "admin"]> (<["_login_pass" := VStr "secret"]> ∅))
      [TypeUser ""; ClickLogin; Reload]) = false.
Proof.
  assert (H : authenticated
    (<["_login_user" := VStr "admin"]> (<["_login_pass" := VStr "secret"]> ∅)) = false)
    by (vm_compute; reflexivity).
  split; [exact H|]. split.
  - apply (proj1 (login_gate "admin" "secret" _ true H)).
    repeat split; try discriminate; vm_compute; reflexivity.
  - apply (proj2 (proj2 (login_gate "" "secret" _ true H))). left. reflexivity.
Defined.

(** The batcher on a list of falsy ids only. *)
Lemma no_ids_no_calls_witness :
  set_order_ok remove_dups
  ∧ truthy_ids [None; Some ""; None] = []
  ∧ get_channel_subscribers echo_service remove_dups "KEY" [None; Some ""; None]
      (World [] []) = (Ok ∅, World [] []).
Proof.
  split; [exact remove_dups_ok|]. split; [reflexivity|].
  apply (no_ids_no_calls echo_service remove_dups "KEY" [None; Some ""; None] (World [] [])
           remove_dups_ok). reflexivity.
Defined.


(** The batcher on 120 distinct ids when the second request times out:
    the 70 entries of the first and third batches are returned. *)
Lemma best_effort_witness :
  set_order_ok remove_dups
  ∧ ∃ o1 o2 o3,
      outcomes flaky_service "KEY" 0 (batches (unique_ids remove_dups ids120)) = [o1; o2; o3]
      ∧ failed o2
      ∧ (get_channel_subscribers flaky_service remove_dups "KEY" ids120 (World [] [])).1
        = Ok (entries_of o3 ∪ entries_of o1)
      ∧ size (entries_of o3 ∪ entries_of o1) = 70%nat.
Proof.
  split; [exact remove_dups_ok|].
  pose proof (best_effort flaky_service remove_dups "KEY" ids120 (World [] []) remove_dups_ok)
    as (_ & _ & _ & _ & _ & _ & H3).
  eexists _, _, _. split; [vm_compute; reflexivity|].
  split; [exact I|]. split.
  - refine (proj1 (H3 _ _ _ _ _)); [vm_compute; reflexivity|exact I].
  - vm_compute. reflexivity.
Defined.

(** The primary fetch on a 403 response. *)
Lemma fetch_errors_witness :
  service_403 0 (Request videos_url (videos_params "KEY" "US" 10)) = Responds resp_403
  ∧ ∃ rest, (get_most_popular_videos short_repr service_403 "KEY" "US" 10 (World [] [])).1
            = Raise (HTTPError ("YouTube API HTTP 403" +:+ rest)).
Proof.
  split; [reflexivity|].
  exact (proj1 (proj2 (proj2 (proj2
    (fetch_errors short_repr service_403 "KEY" "US" 10 (World [] []) resp_403 eq_refl))))
    eq_refl).
Defined.



(** The row of an item without statistics. *)
Lemma metrics_line_witness :
  render_row short_repr ∅ 1 item_without_statistics
  = Ok (Row NoThumbnail "**1. [t](https://www.youtube.com/watch?v=x)**"
            ["ch"; "👁 0"] "ch · 👁 0")
  ∧ ∃ c v, parts (Row NoThumbnail "**1. [t](https://www.youtube.com/watch?v=x)**"
                      ["ch"; "👁 0"] "ch · 👁 0") = [c; "👁 " +:+ v]
           ∧ v = "0".
Proof.
  assert (H : render_row short_repr ∅ 1 item_without_statistics
    = Ok (Row NoThumbnail "**1. [t](https://www.youtube.com/watch?v=x)**"
              ["ch"; "👁 0"] "ch · 👁 0")) by (vm_compute; reflexivity).
  split; [exact H|].
  destruct (metrics_line short_repr ∅ 1 _ _ H)
    as (sn & st & k & v & L & C & S & _ & Hst & _ & Hparts & _ & _ & Hv & HL & HC & HS & _).
  injection Hst as <-.
  exists "ch", v. split; [|exact (Hv eq_refl)].
  rewrite (Hv eq_refl). reflexivity.
Defined.

(** C2 as stated fails on a response that is neither 2xx nor an error
    for the client: 304 is not 2xx, and a batch answered with 304 and a
    JSON body shows no warning and has its entries stored. *)
Lemma best_effort_counterexample :
  status_code resp_304 = 304
  ∧ ¬ (200 ≤ status_code resp_304 < 300)
  ∧ service_304 0 (channels_request "KEY" ["UCa"]) = Responds resp_304
  ∧ get_channel_subscribers service_304 remove_dups "KEY" [Some "UCa"] (World [] [])
    = (Ok {[KStr "UCa" := 1000]}, World [channels_request "KEY" ["UCa"]] []).
Proof.
  split; [reflexivity|]. split; [intros [_ H]; discriminate H|].
  split; [reflexivity|]. vm_compute. reflexivity.
Qed.

(** C5 as stated fails on the same response: the status 304 is not
    2xx, and the fetcher raises no HTTP error but returns the items. *)
Lemma fetch_errors_counterexample :
  ¬ (200 ≤ status_code resp_304 < 300)
  ∧ service_304 0 (Request videos_url (videos_params "KEY" "US" 10)) = Responds resp_304
  ∧ (get_most_popular_videos short_repr service_304 "KEY" "US" 10 (World [] [])).1
    = Ok (VList [channel_record "UCa"]).
Proof.
  split; [intros [_ H]; discriminate H|]. split; [reflexivity|]. vm_compute. reflexivity.
Qed.




(** ** The further properties on the sample inputs *)

Lemma ascii_upper_ok : upper_ok ascii_upper.
Proof.
  split; [done|]. intros [|c s]; [done|]. simpl. discriminate.
Qed.

(** A setting found in no secrets file and not in the environment. *)
Lemma unset_credentials_lock_out_witness :
  (unset short_repr cfg_without_password "AUTH_USERNAME"
   ∨ unset short_repr cfg_without_password "AUTH_PASSWORD")
  ∧ authenticated (∅ : gmap string value) = false
  ∧ authenticated
      (run_events (EXPECTED_USER short_repr cfg_without_password)
         (EXPECTED_PASS short_repr cfg_without_password) ∅
         [TypeUser "admin"; TypePass ""; ClickLogin]) = false.
Proof.
  assert (H : unset short_repr cfg_without_password "AUTH_USERNAME"
              ∨ unset short_repr cfg_without_password "AUTH_PASSWORD")
    by (right; exact I).
  assert (Ha : authenticated (∅ : gmap string value) = false) by (vm_compute; reflexivity).
  split; [exact H|]. split; [exact Ha|].
  exact (proj1 (unset_credentials_lock_out short_repr ascii_upper echo_service remove_dups
    cfg_without_password ∅ [TypeUser "admin"; TypePass ""; ClickLogin] H Ha)).
Defined.

(** A run with the login button pressed on an empty session. *)
Lemma gate_blocks_content_witness :
  authenticated (∅ : gmap string value) = false
  ∧ ∃ st' shown c,
      page_run short_repr ascii_upper video_service remove_dups cfg_without_password
        true true 20 ∅ ([], World [] [])
      = (st', shown, (Ok (Some c), ([], World [] [])))
      ∧ c ≠ Proceed.
Proof.
  assert (Ha : authenticated (∅ : gmap string value) = false) by (vm_compute; reflexivity).
  split; [exact Ha|].
  destruct (gate_blocks_content short_repr ascii_upper video_service remove_dups
              cfg_without_password true true 20 ∅ ([], World [] []) Ha)
    as (st' & shown & c & H & Hc & _).
  exists st', shown, c. split; [exact H|exact Hc].
Defined.


(** The region after the custom field is set to jp, and after it is
    emptied. *)
Lemma region_follows_last_control_witness :
  upper_ok ascii_upper
  ∧ (∃ st', region_step short_repr ascii_upper ∅ (TypeRegion "jp") = Ok st'
            ∧ region ascii_upper st' = Ok "JP")
  ∧ (∃ st', region_step short_repr ascii_upper ∅ (TypeRegion "") = Ok st'
            ∧ region ascii_upper st' = Ok "KR").
Proof.
  split; [exact ascii_upper_ok|].
  pose proof (proj2 (region_follows_last_control short_repr ascii_upper ascii_upper_ok ∅)) as H.
  split.
  - destruct (H "jp") as (st' & Hs & _ & Hr). exists st'. split; [exact Hs|exact (Hr eq_refl)].
  - destruct (H "") as (st' & Hs & _ & Hr). exists st'. split; [exact Hs|exact (Hr eq_refl)].
Defined.

(** The region after US is picked and the custom field is then emptied. *)
Lemma region_always_set_witness :
  upper_ok ascii_upper
  ∧ region_inv ∅
  ∧ Forall offered [SelectRegion "US"; TypeRegion ""]
  ∧ ∃ st' s,
      region_events short_repr ascii_upper (init_region short_repr ascii_upper cfg_empty ∅)
        [SelectRegion "US"; TypeRegion ""] = Ok st'
      ∧ region ascii_upper st' = Ok (ascii_upper s) ∧ ascii_upper s ≠ "".
Proof.
  assert (Hinv : region_inv ∅).
  { split; intros v Hv; by rewrite lookup_empty in Hv. }
  assert (Hoff : Forall offered [SelectRegion "US"; TypeRegion ""]).
  { repeat constructor. }
  split; [exact ascii_upper_ok|]. split; [exact Hinv|]. split; [exact Hoff|].
  destruct (region_always_set short_repr ascii_upper cfg_empty ascii_upper_ok ∅ _ Hinv Hoff)
    as (st' & s & Hrun & _ & _ & _ & Hr & Hne & _).
  exists st', s. split; [exact Hrun|]. split; [exact Hr|exact Hne].
Defined.

(** The content when no API key is configured. *)
Lemma no_key_no_request_witness :
  API_KEY short_repr cfg_empty = ""
  ∧ ∃ msg,
      content short_repr ascii_upper video_service remove_dups cfg_empty
        (init_region short_repr ascii_upper cfg_empty ∅) 20 false ([], World [] [])
      = (Ok (Some Stop), (control_bar ++ [ErrorMessage msg], World [] [])).
Proof.
  assert (Hk : API_KEY short_repr cfg_empty = "") by (vm_compute; reflexivity).
  split; [exact Hk|].
  refine (proj2 (no_key_no_request short_repr ascii_upper video_service remove_dups cfg_empty
    (init_region short_repr ascii_upper cfg_empty ∅) 20 false [] (World [] []) Hk) "KR" _).
  vm_compute. reflexivity.
Defined.

(** The page when the service refuses the fetch with 403. *)
Lemma fetch_failure_stops_witness :
  "KEY" ≠ ""
  ∧ ∃ rest,
      dashboard short_repr ascii_upper service_403 remove_dups "KEY" "KR" 20 false
        ([], World [] [])
      = (Ok (Some Stop),
         ([HttpErrorBox (HTTPError ("YouTube API HTTP 403" +:+ rest))],
          World [videos_request "KEY" "KR" 20] [])).
Proof.
  assert (H : "KEY" ≠ "") by discriminate.
  split; [exact H|]. eexists.
  exact (proj1 (proj2 (proj2 (fetch_failure_stops short_repr ascii_upper service_403 remove_dups
    "KEY" "KR" 20 false [] (World [] []) H))) resp_403 eq_refl eq_refl).
Defined.

(** The page when the items of the response are null. *)
Lemma no_videos_stops_witness :
  "KEY" ≠ ""
  ∧ ∃ msg,
      dashboard short_repr ascii_upper service_null_items remove_dups "KEY" "KR" 20 true
        ([], World [] [])
      = (Ok (Some Stop),
         (toast_of true ++ [WarningMessage msg], World [videos_request "KEY" "KR" 20] [])).
Proof.
  assert (H : "KEY" ≠ "") by discriminate.
  split; [exact H|]. eexists.
  exact (no_videos_stops short_repr ascii_upper service_null_items remove_dups
    "KEY" "KR" 20 true [] (World [] []) resp_null_items _ H eq_refl eq_refl eq_refl
    eq_refl eq_refl).
Defined.

(** The page of two videos of two channels whose subscriber counts the
    service does not give: two requests, two rows. *)
Lemma page_of_results_witness :
  "KEY" ≠ ""
  ∧ ∃ rows blocks w',
      dashboard short_repr ascii_upper video_service remove_dups "KEY" "KR" 20 false
        ([], World [] [])
      = (Ok (Some Proceed), (blocks, w'))
      ∧ length rows = 2%nat
      ∧ length (calls w') = 2%nat
      ∧ blocks = [Subheading "지역: KR • 총 2개"] ++ row_blocks rows
                 ++ [SuccessMessage "불러오기 완료 ✅"].
Proof.
  assert (H : "KEY" ≠ "") by discriminate.
  split; [exact H|].
  destruct (page_of_results short_repr ascii_upper video_service remove_dups "KEY" "KR" 20
              false [] (World [] []) [video_item "UCa"; video_item "UCb"]
              [VStr "UCa"; VStr "UCb"] [Some "UCa"; Some "UCb"] H ltac:(discriminate)
              eq_refl eq_refl eq_refl) as (subs_map & Hsubs & _ & Hpage).
  vm_compute in Hsubs. injection Hsubs as <-.
  edestruct Hpage as (Hd & Hl & _); [vm_compute; reflexivity|].
  eexists _, _, _. split; [exact Hd|]. split; [exact Hl|].
  split; vm_compute; reflexivity.
Defined.

(** An item whose snippet is null, between two videos. *)
Lemma falsy_snippet_breaks_row_witness :
  dict_get "snippet" item_null_snippet = Some VNone
  ∧ channel_ids_of (VList ([video_item "UCa"] ++ VDict item_null_snippet :: [video_item "UCb"]))
    = Ok [VStr "UCa"; VNone; VStr "UCb"]
  ∧ render_row short_repr ∅ 2 (VDict item_null_snippet) = Raise AttributeError.
Proof.
  split; [reflexivity|].
  destruct (falsy_snippet_breaks_row short_repr item_null_snippet VNone eq_refl eq_refl eq_refl)
    as (_ & Happ & Hrow).
  split; [|exact (Hrow ∅ 2%nat)].
  exact (Happ [video_item "UCa"] [video_item "UCb"] [VStr "UCa"] [VStr "UCb"] eq_refl eq_refl).
Defined.


(** The row of an item without channel id, with the count of a channel
    at hand. *)
Lemma rows_without_channel_witness :
  (get_channel_subscribers echo_service remove_dups "KEY" [Some "UCa"] (World [] [])).1
    = Ok (<[KStr "UCa" := 1000]> ∅)
  ∧ render_row short_repr (<[KStr "UCa" := 1000]> ∅) 1 item_without_channel
    = render_row short_repr ∅ 1 item_without_channel.
Proof.
  assert (Hm : (get_channel_subscribers echo_service remove_dups "KEY" [Some "UCa"]
                  (World [] [])).1 = Ok (<[KStr "UCa" := 1000]> ∅))
    by (vm_compute; reflexivity).
  split; [exact Hm|].
  apply (rows_without_channel short_repr echo_service remove_dups "KEY" [Some "UCa"]
           (World [] []) _ 1 item_without_channel Hm).
  intros sn cid Hsn Hcid. injection Hsn as <-. injection Hcid as <-. reflexivity.
Defined.

(** The requests for 120 ids: at most three. *)
Lemma requests_bound_witness :
  set_order_ok remove_dups
  ∧ (length (calls (get_channel_subscribers echo_service remove_dups "KEY" ids120
                      (World [] [])).2) ≤ 3)%nat.
Proof.
  split; [exact remove_dups_ok|].
  exact (proj1 (requests_bound echo_service remove_dups "KEY" ids120 (World [] [])
                  remove_dups_ok)).
Defined.

(** The ids of a batch of two. *)
Lemma ids_round_trip_witness :
  ["UCa"; "UCb"] ≠ ([] : list string)
  ∧ comma_free ["UCa"; "UCb"]
  ∧ split_commas (param "id" (params (channels_request "KEY" ["UCa"; "UCb"]))) = ["UCa"; "UCb"].
Proof.
  assert (H1 : ["UCa"; "UCb"] ≠ ([] : list string)) by discriminate.
  assert (H2 : comma_free ["UCa"; "UCb"]) by (repeat constructor).
  split; [exact H1|]. split; [exact H2|].
  exact (ids_round_trip "KEY" ["UCa"; "UCb"] H1 H2).
Defined.



(** A response in which the second of three records is null. *)
Lemma malformed_record_cuts_batch_witness :
  is_dict VNone = false
  ∧ entries_of (Responds (channels_response
                  ([channel_record "UCa"] ++ VNone :: [channel_record "UCb"])))
    = <[KStr "UCa" := 1000]> ∅
  ∧ warnings_of (Responds (channels_response
                   ([channel_record "UCa"] ++ VNone :: [channel_record "UCb"])))
    = [ExcWarning AttributeError].
Proof.
  split; [reflexivity|].
  destruct (malformed_record_cuts_batch
              (channels_response ([channel_record "UCa"] ++ VNone :: [channel_record "UCb"]))
              (channels_response [channel_record "UCa"])
              [channel_record "UCa"] VNone [channel_record "UCb"]) as (He & _ & Hw).
  - split; [reflexivity|]. eexists. split; reflexivity.
  - split; [reflexivity|]. eexists. split; reflexivity.
  - reflexivity.
  - split; [rewrite He; vm_compute; reflexivity|]. apply Hw. vm_compute. reflexivity.
Defined.

(** The warnings for 120 ids when the second request times out. *)
Lemma warnings_bound_witness :
  set_order_ok remove_dups
  ∧ (length (warnings (get_channel_subscribers flaky_service remove_dups "KEY" ids120
                         (World [] [])).2) - 0
     ≤ length (calls (get_channel_subscribers flaky_service remove_dups "KEY" ids120
                        (World [] [])).2) - 0)%nat.
Proof.
  split; [exact remove_dups_ok|].
  exact (proj1 (warnings_bound flaky_service remove_dups "KEY" ids120 (World [] [])
                  remove_dups_ok)).
Defined.
